(** * pyfbx_render: the batch script that imports an FBX model into the host
    application, frames a camera on it, lights it with an HDR map, and
    saves and/or renders the scene.

    The script (pyfbx_render.py) is straight-line glue over the host's
    Python API.  It is embedded here as a program in a small monad that
    threads the host session, records every call the script issues, and
    propagates the exceptions the script's own control flow can raise.

    Modelling boundary.  What the host does inside an operator (importing
    a file, framing the camera, saving, rendering) and what it puts in a
    freshly created datablock is not in the script: these are the fields
    of [Host]; a theorem holds for all of them unless it says what it asks
    of them.  A call into the
    host is taken to return; [open] is the one call whose failure the
    script handles, so it is the one modelled as fallible.  The loop over
    [scene.objects] visits the objects linked when it starts.  An attribute
    of a datablock is a field: reading it gives what was last stored. *)

From Stdlib Require Import ZArith List Bool Ascii Morphisms.
From Stdlib Require Import Floats.
From stdpp Require Import base option list strings.
Import ListNotations.

Set Default Proof Using "Type".
Local Open Scope Z_scope.
Local Set Warnings "-inexact-float".

(** ** Python values the script handles *)

(** [math.radians(x)] of the interpreter: [x * (pi / 180.0)] in binary64. *)
Definition pi : float := 0x1.921fb54442d18p+1%float.
Definition radians (x : float) : float := (x * (pi / 180))%float.

(** Truthiness of the values [argparse] stores: [None], the empty string
    and the integer zero are false. *)
Definition truthy_str (v : option string) : bool :=
  match v with
  | None => false
  | Some s => negb (String.eqb s "")
  end.

Definition truthy_int (v : option Z) : bool :=
  match v with
  | None => false
  | Some n => negb (Z.eqb n 0)
  end.

(** ** Host data the script reads or writes *)

(** A datablock of a [bpy.data] collection is named by its position in
    the collection; [new] and [load] append. *)
Abbreviation ID := nat.

Record Camera := mkCamera {
  cam_name : string;
  angle : float }.

Record Object := mkObject {
  ob_name : string;
  object_data : ID;
  rotation_euler : float * float * float }.

Record Image := mkImage {
  img_filepath : string }.

(** A shader node is one the host put in the tree (looked up by name, as
    [nodes["Background"]]) or one the script added with [nodes.new]. *)
Inductive node_ref :=
| NodeNamed (name : string)
| NodeAdded (i : nat).

#[global] Instance node_ref_eq_dec : EqDecision node_ref.
Proof. solve_decision. Defined.

Inductive socket :=
| Input (n : node_ref) (name : string)
| Output (n : node_ref) (name : string).

Record ShaderNode := mkShaderNode {
  node_type : string;
  node_image : option ID;
  node_projection : option string }.

Record World := mkWorld {
  world_name : string;
  use_nodes : bool;
  nodes_added : list ShaderNode;
  input_default : list (node_ref * string * float);
  links : list (socket * socket);
  sample_as_light : bool;
  sample_map_resolution : Z;
  visibility_camera : bool }.

Record RenderSettings := mkRenderSettings {
  engine : string;
  resolution_percentage : float;
  filepath : string;
  resolution_x : Z;
  resolution_y : Z;
  color_mode : string }.

Record CyclesSettings := mkCyclesSettings {
  samples : Z;
  film_transparent : bool }.

Record Scene := mkScene {
  camera : option ID;
  objects : list ID;
  world : option ID;
  scene_render : RenderSettings;
  scene_cycles : CyclesSettings }.

Record BlendData := mkBlendData {
  cameras : list Camera;
  data_objects : list Object;
  worlds : list World;
  images : list Image }.

(** Keyword arguments of [bpy.ops.import_scene.fbx]. *)
Record fbx_args := mkFbxArgs {
  axis_forward : string;
  axis_up : string;
  global_scale : float;
  fbx_filepath : string;
  use_alpha_decals : bool;
  decal_offset : float }.

(** Exceptions that reach the script. *)
Inductive exn :=
| UnboundLocalError (name : string)
| OSError (path : string)
| SystemExit.

Inductive result (A : Type) :=
| Normal (a : A)
| Raised (e : exn).
Arguments Normal {A} a.
Arguments Raised {A} e.

(** Every call the script issues, in the script's words. *)
Inductive call :=
| Set_scene_camera (v : option ID)
| Objects_unlink (ob : ID)
| Objects_link (ob : ID)
| Set_scene_world (w : ID)
| Set_engine (v : string)
| Set_resolution_percentage (v : float)
| Set_filepath (v : string)
| Set_samples (v : Z)
| Set_color_mode (v : string)
| Set_film_transparent (v : bool)
| Set_resolution_x (v : Z)
| Set_resolution_y (v : Z)
| Cameras_new (name : string) (cam : ID)
| Objects_new (name : string) (data : ID) (ob : ID)
| Set_rotation_euler (ob : ID) (v : float * float * float)
| Import_scene_fbx (a : fbx_args)
| Get_angle (cam : ID) (v : float)
| Set_angle (cam : ID) (v : float)
| Camera_to_view_selected
| Worlds_new (name : string) (w : ID)
| Set_use_nodes (w : ID) (v : bool)
| Set_input_default (w : ID) (n : node_ref) (input : string) (v : float)
| Nodes_new (w : ID) (type : string) (n : node_ref)
| Images_load (path : string) (img : ID)
| Set_node_image (w : ID) (n : node_ref) (img : ID)
| Set_node_projection (w : ID) (n : node_ref) (v : string)
| Links_new (w : ID) (from to : socket)
| Set_sample_as_light (w : ID) (v : bool)
| Set_sample_map_resolution (w : ID) (v : Z)
| Set_visibility_camera (w : ID) (v : bool)
| Open_w (path : string) (opened : bool)
| Print (text : string)
| Print_fmt (fmt arg : string)
| Print_exc
| Print_help
| Save_as_mainfile (path : string)
| Render_render (write_still : bool).

(** What [parser.parse_args] returns: one attribute per [dest]. *)
Record Namespace := mkNamespace {
  fbx_path : option string;
  hdr_path : option string;
  save_path : option string;
  render_path : option string;
  size_x : option Z;
  size_y : option Z;
  ns_samples : option Z }.

Section Script.

(** Whatever else the host session holds (meshes, selection, files). *)
Context {Env : Type}.

Record Blend := mkBlend {
  scene : Scene;
  data : BlendData;
  env : Env }.

(** The host application and the interpreter embedded in it. *)
Record Host := mkHost {
  fresh_camera : string -> Blend -> Camera;
  fresh_object : string -> ID -> Blend -> Object;
  fresh_world : string -> Blend -> World;
  import_scene_fbx : fbx_args -> Blend -> Blend;
  camera_to_view_selected : Blend -> Blend;
  save_as_mainfile : string -> Blend -> Blend;
  render_render : bool -> Blend -> Blend;
  open_w : string -> Env -> option Env;
  parse_args : list string -> option Namespace }.

(** ** Attribute stores *)

Definition with_scene (f : Scene -> Scene) (b : Blend) : Blend :=
  mkBlend (f (scene b)) (data b) (env b).

Definition with_data (f : BlendData -> BlendData) (b : Blend) : Blend :=
  mkBlend (scene b) (f (data b)) (env b).

Definition with_render (f : RenderSettings -> RenderSettings) : Blend -> Blend :=
  with_scene (fun s =>
    mkScene (camera s) (objects s) (world s) (f (scene_render s)) (scene_cycles s)).

Definition with_cycles (f : CyclesSettings -> CyclesSettings) : Blend -> Blend :=
  with_scene (fun s =>
    mkScene (camera s) (objects s) (world s) (scene_render s) (f (scene_cycles s))).

Definition with_objects (f : list ID -> list ID) : Blend -> Blend :=
  with_scene (fun s =>
    mkScene (camera s) (f (objects s)) (world s) (scene_render s) (scene_cycles s)).

Definition store_camera (v : option ID) : Blend -> Blend :=
  with_scene (fun s =>
    mkScene v (objects s) (world s) (scene_render s) (scene_cycles s)).

Definition store_world (v : option ID) : Blend -> Blend :=
  with_scene (fun s =>
    mkScene (camera s) (objects s) v (scene_render s) (scene_cycles s)).

Definition store_engine (v : string) : Blend -> Blend :=
  with_render (fun r =>
    mkRenderSettings v (resolution_percentage r) (filepath r)
      (resolution_x r) (resolution_y r) (color_mode r)).

Definition store_resolution_percentage (v : float) : Blend -> Blend :=
  with_render (fun r =>
    mkRenderSettings (engine r) v (filepath r)
      (resolution_x r) (resolution_y r) (color_mode r)).

Definition store_filepath (v : string) : Blend -> Blend :=
  with_render (fun r =>
    mkRenderSettings (engine r) (resolution_percentage r) v
      (resolution_x r) (resolution_y r) (color_mode r)).

Definition store_resolution_x (v : Z) : Blend -> Blend :=
  with_render (fun r =>
    mkRenderSettings (engine r) (resolution_percentage r) (filepath r)
      v (resolution_y r) (color_mode r)).

Definition store_resolution_y (v : Z) : Blend -> Blend :=
  with_render (fun r =>
    mkRenderSettings (engine r) (resolution_percentage r) (filepath r)
      (resolution_x r) v (color_mode r)).

Definition store_color_mode (v : string) : Blend -> Blend :=
  with_render (fun r =>
    mkRenderSettings (engine r) (resolution_percentage r) (filepath r)
      (resolution_x r) (resolution_y r) v).

Definition store_samples (v : Z) : Blend -> Blend :=
  with_cycles (fun c => mkCyclesSettings v (film_transparent c)).

Definition store_film_transparent (v : bool) : Blend -> Blend :=
  with_cycles (fun c => mkCyclesSettings (samples c) v).

Definition with_cameras (f : list Camera -> list Camera) : Blend -> Blend :=
  with_data (fun d => mkBlendData (f (cameras d)) (data_objects d) (worlds d) (images d)).

Definition with_data_objects (f : list Object -> list Object) : Blend -> Blend :=
  with_data (fun d => mkBlendData (cameras d) (f (data_objects d)) (worlds d) (images d)).

Definition with_worlds (f : list World -> list World) : Blend -> Blend :=
  with_data (fun d => mkBlendData (cameras d) (data_objects d) (f (worlds d)) (images d)).

Definition with_images (f : list Image -> list Image) : Blend -> Blend :=
  with_data (fun d => mkBlendData (cameras d) (data_objects d) (worlds d) (f (images d))).

(** Assignment to an attribute of the datablock [i] of a collection. *)
Definition with_camera (i : ID) (f : Camera -> Camera) : Blend -> Blend :=
  with_cameras (alter f i).

Definition with_object (i : ID) (f : Object -> Object) : Blend -> Blend :=
  with_data_objects (alter f i).

Definition with_world (i : ID) (f : World -> World) : Blend -> Blend :=
  with_worlds (alter f i).

Definition store_angle (v : float) (c : Camera) : Camera :=
  mkCamera (cam_name c) v.

Definition store_rotation_euler (v : float * float * float) (o : Object) : Object :=
  mkObject (ob_name o) (object_data o) v.

Definition store_use_nodes (v : bool) (w : World) : World :=
  mkWorld (world_name w) v (nodes_added w) (input_default w) (links w)
    (sample_as_light w) (sample_map_resolution w) (visibility_camera w).

Definition with_nodes_added (f : list ShaderNode -> list ShaderNode) (w : World) : World :=
  mkWorld (world_name w) (use_nodes w) (f (nodes_added w)) (input_default w) (links w)
    (sample_as_light w) (sample_map_resolution w) (visibility_camera w).

Definition store_input_default (n : node_ref) (input : string) (v : float) (w : World) : World :=
  mkWorld (world_name w) (use_nodes w) (nodes_added w)
    ((n, input, v) :: input_default w) (links w)
    (sample_as_light w) (sample_map_resolution w) (visibility_camera w).

Definition add_link (l : socket * socket) (w : World) : World :=
  mkWorld (world_name w) (use_nodes w) (nodes_added w) (input_default w)
    (links w ++ [l])
    (sample_as_light w) (sample_map_resolution w) (visibility_camera w).

Definition store_sample_as_light (v : bool) (w : World) : World :=
  mkWorld (world_name w) (use_nodes w) (nodes_added w) (input_default w) (links w)
    v (sample_map_resolution w) (visibility_camera w).

Definition store_sample_map_resolution (v : Z) (w : World) : World :=
  mkWorld (world_name w) (use_nodes w) (nodes_added w) (input_default w) (links w)
    (sample_as_light w) v (visibility_camera w).

Definition store_visibility_camera (v : bool) (w : World) : World :=
  mkWorld (world_name w) (use_nodes w) (nodes_added w) (input_default w) (links w)
    (sample_as_light w) (sample_map_resolution w) v.

(** Attributes of an added shader node; a named node of the host's keeps
    them inside the host. *)
Definition with_node (n : node_ref) (f : ShaderNode -> ShaderNode) : World -> World :=
  match n with
  | NodeAdded i => with_nodes_added (alter f i)
  | NodeNamed _ => fun w => w
  end.

Definition store_node_image (img : ID) (n : ShaderNode) : ShaderNode :=
  mkShaderNode (node_type n) (Some img) (node_projection n).

Definition store_node_projection (v : string) (n : ShaderNode) : ShaderNode :=
  mkShaderNode (node_type n) (node_image n) (Some v).

(** Reading through a handle: a datablock the host has dropped since reads
    as the empty one. *)
Definition camera_at (b : Blend) (i : ID) : Camera :=
  default (mkCamera "" 0%float) (cameras (data b) !! i).

(** ** The monad of the script *)

Record run (A : Type) := mkRun {
  res : result A;
  final : Blend;
  trace : list call }.
Arguments mkRun {A} res final trace.
Arguments res {A} r.
Arguments final {A} r.
Arguments trace {A} r.

Definition M (A : Type) : Type := Blend -> run A.

Definition ret {A} (a : A) : M A :=
  fun b => mkRun (Normal a) b [].

Definition bind {A B} (m : M A) (k : A -> M B) : M B :=
  fun b =>
    match m b with
    | mkRun (Normal a) b1 t1 =>
        match k a b1 with
        | mkRun r b2 t2 => mkRun r b2 (t1 ++ t2)
        end
    | mkRun (Raised e) b1 t1 => mkRun (Raised e) b1 t1
    end.

Definition raise {A} (e : exn) : M A :=
  fun b => mkRun (Raised e) b [].

(** [try: body / except: handler], with a bare [except]. *)
Definition try_except {A} (body handler : M A) : M A :=
  fun b =>
    match body b with
    | mkRun (Normal a) b1 t1 => mkRun (Normal a) b1 t1
    | mkRun (Raised _) b1 t1 =>
        match handler b1 with
        | mkRun r b2 t2 => mkRun r b2 (t1 ++ t2)
        end
    end.

(** One call into the host: what it returns, what it does, how it reads in
    the trace. *)
Definition hostcall {A} (value : Blend -> A) (effect : A -> Blend -> Blend)
    (c : A -> call) : M A :=
  fun b => let a := value b in mkRun (Normal a) (effect a b) [c a].

Definition perform (c : call) (effect : Blend -> Blend) : M unit :=
  hostcall (fun _ => tt) (fun _ => effect) (fun _ => c).

(** [for x in xs: body]. *)
Fixpoint for_each {A} (xs : list A) (body : A -> M unit) : M unit :=
  match xs with
  | [] => ret tt
  | x :: xs' => bind (body x) (fun _ => for_each xs' body)
  end.

End Script.

Arguments Blend : clear implicits.
Arguments Host : clear implicits.
Arguments M : clear implicits.
Arguments run : clear implicits.
Arguments mkRun {Env A} res final trace.
Arguments res {Env A} r.
Arguments final {Env A} r.
Arguments trace {Env A} r.

#[global] Instance M_ret {Env} : MRet (M Env) := @ret Env.
#[global] Instance M_bind {Env} : MBind (M Env) := fun A B k m => bind m k.

(** ** The host API as the script uses it *)

Section API.

Context {Env : Type} (host : Host Env).

Abbreviation M := (M Env).
Abbreviation Blend := (Blend Env).

(** [scene.camera = v] *)
Definition set_scene_camera (v : option ID) : M unit :=
  perform (Set_scene_camera v) (store_camera v).

(** [scene.objects.unlink(obj)] *)
Definition objects_unlink (ob : ID) : M unit :=
  perform (Objects_unlink ob) (with_objects (filter (fun o => o <> ob))).

(** [scene.objects.link(obj)] *)
Definition objects_link (ob : ID) : M unit :=
  perform (Objects_link ob) (with_objects (fun l => l ++ [ob])).

(** The objects [for obj in scene.objects] visits: those linked when the
    loop starts. *)
Definition scene_objects : M (list ID) :=
  fun b => mkRun (Normal (objects (scene b))) b [].

Definition set_engine (v : string) : M unit :=
  perform (Set_engine v) (store_engine v).

Definition set_resolution_percentage (v : float) : M unit :=
  perform (Set_resolution_percentage v) (store_resolution_percentage v).

Definition set_filepath (v : string) : M unit :=
  perform (Set_filepath v) (store_filepath v).

Definition set_samples (v : Z) : M unit :=
  perform (Set_samples v) (store_samples v).

Definition set_color_mode (v : string) : M unit :=
  perform (Set_color_mode v) (store_color_mode v).

Definition set_film_transparent (v : bool) : M unit :=
  perform (Set_film_transparent v) (store_film_transparent v).

Definition set_resolution_x (v : Z) : M unit :=
  perform (Set_resolution_x v) (store_resolution_x v).

Definition set_resolution_y (v : Z) : M unit :=
  perform (Set_resolution_y v) (store_resolution_y v).

(** [bpy.data.cameras.new(name)] *)
Definition cameras_new (name : string) : M ID :=
  hostcall (fun b => length (cameras (data b)))
    (fun _ b => with_cameras (fun l => l ++ [fresh_camera host name b]) b)
    (Cameras_new name).

(** [bpy.data.objects.new(name=name, object_data=data)] *)
Definition objects_new (name : string) (dat : ID) : M ID :=
  hostcall (fun b => length (data_objects (data b)))
    (fun _ b => with_data_objects (fun l => l ++ [fresh_object host name dat b]) b)
    (Objects_new name dat).

(** [ob.rotation_euler = v] *)
Definition set_rotation_euler (ob : ID) (v : float * float * float) : M unit :=
  perform (Set_rotation_euler ob v) (with_object ob (store_rotation_euler v)).

(** [bpy.ops.import_scene.fbx(...)] *)
Definition import_scene_fbx_op (a : fbx_args) : M unit :=
  perform (Import_scene_fbx a) (import_scene_fbx host a).

(** [cam.angle] *)
Definition get_angle (cam : ID) : M float :=
  hostcall (fun b => angle (camera_at b cam)) (fun _ b => b) (Get_angle cam).

(** [cam.angle = v] *)
Definition set_angle (cam : ID) (v : float) : M unit :=
  perform (Set_angle cam v) (with_camera cam (store_angle v)).

(** [bpy.ops.view3d.camera_to_view_selected()] *)
Definition camera_to_view_selected_op : M unit :=
  perform Camera_to_view_selected (camera_to_view_selected host).

(** [bpy.data.worlds.new(name=name)] *)
Definition worlds_new (name : string) : M ID :=
  hostcall (fun b => length (worlds (data b)))
    (fun _ b => with_worlds (fun l => l ++ [fresh_world host name b]) b)
    (Worlds_new name).

(** [scene.world = w] *)
Definition set_scene_world (w : ID) : M unit :=
  perform (Set_scene_world w) (store_world (Some w)).

(** [world.use_nodes = v] *)
Definition set_use_nodes (w : ID) (v : bool) : M unit :=
  perform (Set_use_nodes w v) (with_world w (store_use_nodes v)).

(** [node.inputs[input].default_value = v] *)
Definition set_input_default (w : ID) (n : node_ref) (input : string) (v : float)
    : M unit :=
  perform (Set_input_default w n input v) (with_world w (store_input_default n input v)).

(** [nodes.new(type=type)] *)
Definition nodes_new (w : ID) (type : string) : M node_ref :=
  hostcall
    (fun b => NodeAdded (length (nodes_added (default
       (mkWorld "" false [] [] [] false 0 false) (worlds (data b) !! w)))))
    (fun _ => with_world w (with_nodes_added (fun l => l ++ [mkShaderNode type None None])))
    (Nodes_new w type).

(** [bpy.data.images.load(path)] *)
Definition images_load (path : string) : M ID :=
  hostcall (fun b => length (images (data b)))
    (fun _ => with_images (fun l => l ++ [mkImage path]))
    (Images_load path).

(** [node.image = img] *)
Definition set_node_image (w : ID) (n : node_ref) (img : ID) : M unit :=
  perform (Set_node_image w n img) (with_world w (with_node n (store_node_image img))).

(** [node.projection = v] *)
Definition set_node_projection (w : ID) (n : node_ref) (v : string) : M unit :=
  perform (Set_node_projection w n v)
    (with_world w (with_node n (store_node_projection v))).

(** [links.new(from, to)] *)
Definition links_new (w : ID) (from to : socket) : M unit :=
  perform (Links_new w from to) (with_world w (add_link (from, to))).

(** [world.cycles.sample_as_light = v] *)
Definition set_sample_as_light (w : ID) (v : bool) : M unit :=
  perform (Set_sample_as_light w v) (with_world w (store_sample_as_light v)).

(** [world.cycles.sample_map_resolution = v] *)
Definition set_sample_map_resolution (w : ID) (v : Z) : M unit :=
  perform (Set_sample_map_resolution w v) (with_world w (store_sample_map_resolution v)).

(** [world.cycles_visibility.camera = v] *)
Definition set_visibility_camera (w : ID) (v : bool) : M unit :=
  perform (Set_visibility_camera w v) (with_world w (store_visibility_camera v)).

(** [f = open(path, 'w'); f.close()]: a file is created or emptied, or
    [open] raises. *)
Definition open_close (path : string) : M unit :=
  fun b =>
    match open_w host path (env b) with
    | Some e => mkRun (Normal tt) (mkBlend (scene b) (data b) e) [Open_w path true]
    | None => mkRun (Raised (OSError path)) b [Open_w path false]
    end.

Definition print (text : string) : M unit := perform (Print text) (fun b => b).

(** [print(fmt % arg)] *)
Definition print_fmt (fmt arg : string) : M unit :=
  perform (Print_fmt fmt arg) (fun b => b).

Definition print_exc : M unit := perform Print_exc (fun b => b).

Definition print_help : M unit := perform Print_help (fun b => b).

(** [bpy.ops.wm.save_as_mainfile(filepath=path)] *)
Definition save_as_mainfile_op (path : string) : M unit :=
  perform (Save_as_mainfile path) (save_as_mainfile host path).

(** [bpy.ops.render.render(write_still=v)] *)
Definition render_render_op (write_still : bool) : M unit :=
  perform (Render_render write_still) (render_render host write_still).

(** [parser.parse_args(argv)]: argparse leaves by [SystemExit] on an error
    and on [--help]. *)
Definition parse_args_call (argv : list string) : M Namespace :=
  match parse_args host argv with
  | Some ns => mret ns
  | None => raise SystemExit
  end.

(** ** The script *)

(** The string a true-tested optional argument holds. *)
Definition str_of (v : option string) : string := default "" v.
Definition int_of (v : option Z) : Z := default 0 v.

Definition dquote : string := String (Ascii.ascii_of_nat 34) EmptyString.

Definition render_hdr_set (hdr_path : string) : M unit :=
  world ← worlds_new "World";
  set_scene_world world;;
  set_use_nodes world true;;
  let node_bg := NodeNamed "Background" in
  set_input_default world node_bg "Strength" 1.5%float;;
  node_env ← nodes_new world "ShaderNodeTexEnvironment";
  img ← images_load hdr_path;
  set_node_image world node_env img;;
  set_node_projection world node_env "MIRROR_BALL";;
  links_new world (Output node_env "Color") (Input node_bg "Color");;
  set_sample_as_light world true;;
  set_sample_map_resolution world 512;;
  (* so we dont see the HDR image *)
  set_visibility_camera world false.

Definition render (fbx_path : string) (hdr_path : option string)
    (size_x size_y samples : option Z) (save_path render_path : option string)
    : M unit :=
  (* Clear existing objects. *)
  set_scene_camera None;;
  obs ← scene_objects;
  for_each obs objects_unlink;;

  set_engine "CYCLES";;
  set_resolution_percentage 100%float;;
  (if truthy_str render_path then set_filepath (str_of render_path) else mret tt);;
  (if truthy_int samples then set_samples (int_of samples) else mret tt);;

  (* alpha *)
  set_color_mode "RGBA";;
  set_film_transparent true;;

  (if truthy_int size_x then set_resolution_x (int_of size_x) else mret tt);;
  (if truthy_int size_y then set_resolution_y (int_of size_y) else mret tt);;

  (* Camera *)
  cam_data ← cameras_new "MyCam";
  cam_ob ← objects_new "MyCam" cam_data;
  objects_link cam_ob;;
  set_scene_camera (Some cam_ob);;

  (* Could make this an option *)
  set_rotation_euler cam_ob (radians 60, radians 0, radians 170);;

  (* Import! *)
  import_scene_fbx_op
    (mkFbxArgs "Y" "Z" 0.001%float fbx_path true 0.1%float);;

  (* frame the image with a margin *)
  angle ← get_angle cam_data;
  a ← get_angle cam_data;
  set_angle cam_data (a * 0.95)%float;;
  camera_to_view_selected_op;;
  set_angle cam_data angle;;

  (if truthy_str hdr_path then render_hdr_set (str_of hdr_path) else mret tt);;

  (* Finish up *)

  (* [ok] is a local of [render]; nothing binds it before the [try]. *)
  let ok : option bool := None in
  (if truthy_str save_path then
     ok ← try_except
            (open_close (str_of save_path);;
             mret (Some true))
            (print_fmt "Cannot save to path %r" (str_of save_path);;
             print_exc;;
             mret ok);
     match ok with
     | None => raise (UnboundLocalError "ok")
     | Some true => save_as_mainfile_op (str_of save_path)
     | Some false => mret tt
     end
   else mret tt);;

  (if truthy_str render_path then render_render_op true else mret tt).

(** [argv[argv.index(x) + 1:]] *)
Fixpoint after_first (x : string) (argv : list string) : list string :=
  match argv with
  | [] => []
  | a :: rest => if String.eqb a x then rest else after_first x rest
  end.

(** The arguments after [--], which the host leaves to the script. *)
Definition script_args (sys_argv : list string) : list string :=
  if negb (existsb (String.eqb "--") sys_argv) then []
  else after_first "--" sys_argv.

Definition main (sys_argv : list string) : M unit :=
  let argv := script_args sys_argv in
  args ← parse_args_call argv;
  match argv with
  | [] => print_help
  | _ :: _ =>
      if negb (truthy_str (fbx_path args)) then
        print ("Error: --fbx_path=" +:+ dquote +:+ "some file" +:+ dquote
               +:+ " argument not given, aborting.");;
        print_help
      else
        render (str_of (fbx_path args)) (hdr_path args)
          (size_x args) (size_y args) (ns_samples args)
          (save_path args) (render_path args);;
        print "batch job finished, exiting"
  end.

(** ** The blocks of [render] *)

(** [render] cut at the comments of the source, to name the session at
    each cut; [render_is_blocks] below shows the cuts put together run as
    [render] does. *)

(** # Clear existing objects. *)
Definition clear_scene : M unit :=
  set_scene_camera None;;
  obs ← scene_objects;
  for_each obs objects_unlink.

Definition configure (size_x size_y samples : option Z) (render_path : option string)
    : M unit :=
  set_engine "CYCLES";;
  set_resolution_percentage 100%float;;
  (if truthy_str render_path then set_filepath (str_of render_path) else mret tt);;
  (if truthy_int samples then set_samples (int_of samples) else mret tt);;
  (* alpha *)
  set_color_mode "RGBA";;
  set_film_transparent true;;
  (if truthy_int size_x then set_resolution_x (int_of size_x) else mret tt);;
  (if truthy_int size_y then set_resolution_y (int_of size_y) else mret tt).

(** # Camera *)
Definition make_camera : M ID :=
  cam_data ← cameras_new "MyCam";
  cam_ob ← objects_new "MyCam" cam_data;
  objects_link cam_ob;;
  set_scene_camera (Some cam_ob);;
  (* Could make this an option *)
  set_rotation_euler cam_ob (radians 60, radians 0, radians 170);;
  mret cam_data.

(** # Import! *)
Definition import_model (fbx_path : string) : M unit :=
  import_scene_fbx_op
    (mkFbxArgs "Y" "Z" 0.001%float fbx_path true 0.1%float).

(** # frame the image with a margin *)
Definition frame_camera (cam_data : ID) : M unit :=
  angle ← get_angle cam_data;
  a ← get_angle cam_data;
  set_angle cam_data (a * 0.95)%float;;
  camera_to_view_selected_op;;
  set_angle cam_data angle.

(** The [if save_path:] block; the local [ok] is not bound before it. *)
Definition save_scene (save_path : string) : M unit :=
  let ok : option bool := None in
  ok ← try_except
         (open_close save_path;; mret (Some true))
         (print_fmt "Cannot save to path %r" save_path;;
          print_exc;;
          mret ok);
  match ok with
  | None => raise (UnboundLocalError "ok")
  | Some true => save_as_mainfile_op save_path
  | Some false => mret tt
  end.

(** Lines 80-120 of [render]: the scene is cleared and configured, the
    camera made, the model imported.  Returns the local [cam_data]. *)
Definition set_up (fbx_path : string) (size_x size_y samples : option Z)
    (render_path : option string) : M ID :=
  clear_scene;;
  configure size_x size_y samples render_path;;
  cam_data ← make_camera;
  import_model fbx_path;;
  mret cam_data.

(** [if hdr_path: render_hdr_set(scene, hdr_path)] *)
Definition lighting (hdr_path : option string) : M unit :=
  if truthy_str hdr_path then render_hdr_set (str_of hdr_path) else mret tt.

(** Lines 80-126: up to the framed camera. *)
Definition framed (fbx_path : string) (size_x size_y samples : option Z)
    (render_path : option string) : M unit :=
  cam_data ← set_up fbx_path size_x size_y samples render_path;
  frame_camera cam_data.

(** Lines 80-129: everything before [# Finish up]. *)
Definition prepare (fbx_path : string) (hdr_path : option string)
    (size_x size_y samples : option Z) (render_path : option string) : M unit :=
  framed fbx_path size_x size_y samples render_path;;
  lighting hdr_path.

(** # Finish up *)
Definition finish (save_path render_path : option string) : M unit :=
  (if truthy_str save_path then save_scene (str_of save_path) else mret tt);;
  (if truthy_str render_path then render_render_op true else mret tt).

(** [render], block after block. *)
Definition render_blocks (fbx_path : string) (hdr_path : option string)
    (size_x size_y samples : option Z) (save_path render_path : option string)
    : M unit :=
  prepare fbx_path hdr_path size_x size_y samples render_path;;
  finish save_path render_path.

End API.

(** ** Steps of a run *)

(** The blocks of the script, in the order the source has them; [Report]
    is what [main] prints around [render]. *)
Inductive step :=
| Clear | Configure | Make_camera | Import | Frame | Lighting | Save
| Render_image | Report.

#[global] Instance step_eq_dec : EqDecision step.
Proof. solve_decision. Defined.

Definition step_of (c : call) : step :=
  match c with
  | Set_scene_camera None | Objects_unlink _ => Clear
  | Set_engine _ | Set_resolution_percentage _ | Set_filepath _
  | Set_samples _ | Set_color_mode _ | Set_film_transparent _
  | Set_resolution_x _ | Set_resolution_y _ => Configure
  | Cameras_new _ _ | Objects_new _ _ _ | Objects_link _
  | Set_scene_camera (Some _) | Set_rotation_euler _ _ => Make_camera
  | Import_scene_fbx _ => Import
  | Get_angle _ _ | Set_angle _ _ | Camera_to_view_selected => Frame
  | Worlds_new _ _ | Set_scene_world _ | Set_use_nodes _ _
  | Set_input_default _ _ _ _ | Nodes_new _ _ _ | Images_load _ _
  | Set_node_image _ _ _ | Set_node_projection _ _ _ | Links_new _ _ _
  | Set_sample_as_light _ _ | Set_sample_map_resolution _ _
  | Set_visibility_camera _ _ => Lighting
  | Open_w _ _ | Print_fmt _ _ | Print_exc | Save_as_mainfile _ => Save
  | Render_render _ => Render_image
  | Print _ | Print_help => Report
  end.

(** The steps a trace goes through: the step of each call, a run of calls
    of one step counted once. *)
Fixpoint steps (t : list call) : list step :=
  match t with
  | [] => []
  | c :: t' =>
      match steps t' with
      | (s :: _) as r => if decide (step_of c = s) then r else step_of c :: r
      | [] => [step_of c]
      end
  end.

Definition opt_step (cond : bool) (s : step) : list step :=
  if cond then [s] else [].

(** The order of the steps of [render], as the source lists them. *)
Definition fixed_order (hdr_path save_path render_path : option string) : list step :=
  [Clear; Configure; Make_camera; Import; Frame]
  ++ opt_step (truthy_str hdr_path) Lighting
  ++ opt_step (truthy_str save_path) Save
  ++ opt_step (truthy_str render_path) Render_image.

Definition is_import (c : call) : bool :=
  match c with Import_scene_fbx _ => true | _ => false end.

Definition is_save (c : call) : bool :=
  match c with Save_as_mainfile _ => true | _ => false end.

Definition is_render (c : call) : bool :=
  match c with Render_render _ => true | _ => false end.

Definition is_set_filepath (c : call) : bool :=
  match c with Set_filepath _ => true | _ => false end.

Definition is_set_samples (c : call) : bool :=
  match c with Set_samples _ => true | _ => false end.

Definition is_set_resolution_x (c : call) : bool :=
  match c with Set_resolution_x _ => true | _ => false end.

Definition is_set_resolution_y (c : call) : bool :=
  match c with Set_resolution_y _ => true | _ => false end.

Definition is_set_color_mode (c : call) : bool :=
  match c with Set_color_mode _ => true | _ => false end.

Definition is_set_film_transparent (c : call) : bool :=
  match c with Set_film_transparent _ => true | _ => false end.

Definition is_set_rotation_euler (c : call) : bool :=
  match c with Set_rotation_euler _ _ => true | _ => false end.

Definition is_set_angle (c : call) : bool :=
  match c with Set_angle _ _ => true | _ => false end.

(** The calls of a trace that satisfy [p], in order. *)
Definition calls_where (p : call -> bool) (t : list call) : list call :=
  List.filter p t.

(** ** A host to run the script on *)

(** The option strings of the parser [main] builds, and the attribute each
    stores to. *)
Inductive dest :=
| Dfbx | Dhdr | Dsave | Drender | Dwidth | Dheight | Dsamples.

Definition option_strings : list (string * dest) :=
  [("-F", Dfbx); ("--fbx", Dfbx); ("-H", Dhdr); ("--hdr", Dhdr);
   ("-S", Dsave); ("--save", Dsave); ("-r", Drender); ("--render", Drender);
   ("-x", Dwidth); ("--width", Dwidth); ("-y", Dheight); ("--height", Dheight);
   ("-s", Dsamples); ("--samples", Dsamples)].

Fixpoint find_option (o : string) (l : list (string * dest)) : option dest :=
  match l with
  | [] => None
  | (o', d) :: l' => if String.eqb o o' then Some d else find_option o l'
  end.

Definition digit_of (c : Ascii.ascii) : option Z :=
  let n := Z.of_nat (Ascii.nat_of_ascii c) in
  if (48 <=? n) && (n <=? 57) then Some (n - 48) else None.

Fixpoint digits (s : string) (acc : Z) : option Z :=
  match s with
  | EmptyString => Some acc
  | String c s' =>
      match digit_of c with
      | Some d => digits s' (10 * acc + d)
      | None => None
      end
  end.

(** [int(s)] for an optional sign and decimal digits. *)
Definition py_int (s : string) : option Z :=
  match s with
  | EmptyString => None
  | String "-"%char ((String _ _) as s') => Z.opp <$> digits s' 0
  | String "+"%char ((String _ _) as s') => digits s' 0
  | _ => digits s 0
  end.

Definition store (d : dest) (v : string) (ns : Namespace) : option Namespace :=
  match d with
  | Dfbx => Some (mkNamespace (Some v) (hdr_path ns) (save_path ns) (render_path ns)
                    (size_x ns) (size_y ns) (ns_samples ns))
  | Dhdr => Some (mkNamespace (fbx_path ns) (Some v) (save_path ns) (render_path ns)
                    (size_x ns) (size_y ns) (ns_samples ns))
  | Dsave => Some (mkNamespace (fbx_path ns) (hdr_path ns) (Some v) (render_path ns)
                     (size_x ns) (size_y ns) (ns_samples ns))
  | Drender => Some (mkNamespace (fbx_path ns) (hdr_path ns) (save_path ns) (Some v)
                       (size_x ns) (size_y ns) (ns_samples ns))
  | Dwidth =>
      n ← py_int v;
      Some (mkNamespace (fbx_path ns) (hdr_path ns) (save_path ns) (render_path ns)
              (Some n) (size_y ns) (ns_samples ns))
  | Dheight =>
      n ← py_int v;
      Some (mkNamespace (fbx_path ns) (hdr_path ns) (save_path ns) (render_path ns)
              (size_x ns) (Some n) (ns_samples ns))
  | Dsamples =>
      n ← py_int v;
      Some (mkNamespace (fbx_path ns) (hdr_path ns) (save_path ns) (render_path ns)
              (size_x ns) (size_y ns) (Some n))
  end.

(** [s.split('=', 1)] *)
Fixpoint split_eq (s : string) : string * option string :=
  match s with
  | EmptyString => (EmptyString, None)
  | String "="%char s' => (EmptyString, Some s')
  | String c s' => let '(a, v) := split_eq s' in (String c a, v)
  end.

Definition starts_with_dash (s : string) : bool :=
  match s with
  | String "-"%char _ => true
  | _ => false
  end.

(** A model of [parse_args] for the parser of [main], on command lines
    that spell each option in full, as [--opt=value], [--opt value],
    [-o value] or [-ovalue]; [None] is argparse's exit.  Abbreviated long
    options and [-h] are outside it. *)
Fixpoint argparse (argv : list string) (pending : option dest) (ns : Namespace)
    : option Namespace :=
  match argv with
  | [] => match pending with None => Some ns | Some _ => None end
  | a :: rest =>
      match pending with
      | Some d =>
          if starts_with_dash a && negb (bool_decide (is_Some (py_int a)))
          then None
          else ns' ← store d a ns; argparse rest None ns'
      | None =>
          if negb (starts_with_dash a) then None
          else match find_option a option_strings with
               | Some d => argparse rest (Some d) ns
               | None =>
                   match split_eq a with
                   | (o, Some v) =>
                       d ← find_option o option_strings;
                       ns' ← store d v ns;
                       argparse rest None ns'
                   | (_, None) =>
                       match a with
                       | String c1 (String c2 ((String _ _) as v)) =>
                           d ← find_option (String c1 (String c2 EmptyString))
                                 option_strings;
                           ns' ← store d v ns;
                           argparse rest None ns'
                       | _ => None
                       end
                   end
               end
      end
  end.

Definition empty_namespace : Namespace :=
  mkNamespace None None None None None None None.

(** A host session with no state of its own beyond the modelled data: the
    importer links one object named after the file, the other operators
    change nothing, and nothing can be opened under [/nonexistent/]. *)
Definition demo_host : Host unit :=
  mkHost
    (fun name _ => mkCamera name 0.8575560450553894%float)
    (fun name dat _ => mkObject name dat (0, 0, 0)%float)
    (fun name _ => mkWorld name false [] [] [] false 256 true)
    (fun a b =>
       with_objects (fun l => l ++ [length (data_objects (data b))])
         (with_data_objects
            (fun l => l ++ [mkObject (fbx_filepath a) 0%nat (0, 0, 0)%float]) b))
    (fun b => b)
    (fun _ b => b)
    (fun _ b => b)
    (fun path e => if String.prefix "/nonexistent/" path then None else Some e)
    (fun argv => argparse argv None empty_namespace).

(** The session the host starts with: a camera, a cube and a lamp in the
    scene. *)
Definition demo_blend : Blend unit :=
  mkBlend
    (mkScene (Some 0%nat) [0; 1; 2]%nat (Some 0%nat)
       (mkRenderSettings "BLENDER_RENDER" 50%float "/tmp/" 1920 1080 "RGB")
       (mkCyclesSettings 10 false))
    (mkBlendData
       [mkCamera "Camera" 0.8575560450553894%float]
       [mkObject "Camera" 0%nat (0, 0, 0)%float;
        mkObject "Cube" 0%nat (0, 0, 0)%float;
        mkObject "Lamp" 0%nat (0, 0, 0)%float]
       [mkWorld "World" false [] [] [] false 256 true]
       [])
    tt.

Definition demo_argv (options : list string) : list string :=
  ["blender"; "--background"; "--python"; "pyfbx_render.py"; "--"] ++ options.

(** The options of the usage example at the head of the script. *)
Definition usage_options : list string :=
  ["--fbx=/path/to/some.fbx"; "--hdr=/path/to/image.hdr";
   "--width=800"; "--height=800"; "--samples=80";
   "--render=/tmp/render_out_image"; "--save=/tmp/blend_out.blend"].

Definition usage_namespace : Namespace :=
  mkNamespace (Some "/path/to/some.fbx") (Some "/path/to/image.hdr")
    (Some "/tmp/blend_out.blend") (Some "/tmp/render_out_image")
    (Some 800) (Some 800) (Some 80).

(** A save path in a directory that does not exist. *)
Definition unwritable_options : list string :=
  ["--fbx=/path/to/some.fbx"; "--render=/tmp/render_out_image";
   "--save=/nonexistent/blend_out.blend"].

Definition unwritable_namespace : Namespace :=
  mkNamespace (Some "/path/to/some.fbx") None
    (Some "/nonexistent/blend_out.blend") (Some "/tmp/render_out_image")
    None None None.

(** [--save] and [--render] given with nothing after the equals sign. *)
Definition empty_options : list string :=
  ["--fbx=/path/to/some.fbx"; "--save="; "--render="].

Definition empty_namespace_paths : Namespace :=
  mkNamespace (Some "/path/to/some.fbx") None (Some EmptyString) (Some EmptyString)
    None None None.

(** ** What each block of the script issues *)

Definition clear_calls (obs : list ID) : list call :=
  Set_scene_camera None :: map Objects_unlink obs.

Definition configure_calls (size_x size_y samples : option Z)
    (render_path : option string) : list call :=
  [Set_engine "CYCLES"; Set_resolution_percentage 100%float]
  ++ (if truthy_str render_path then [Set_filepath (str_of render_path)] else [])
  ++ (if truthy_int samples then [Set_samples (int_of samples)] else [])
  ++ [Set_color_mode "RGBA"; Set_film_transparent true]
  ++ (if truthy_int size_x then [Set_resolution_x (int_of size_x)] else [])
  ++ (if truthy_int size_y then [Set_resolution_y (int_of size_y)] else []).

Definition camera_rotation : float * float * float :=
  (radians 60, radians 0, radians 170).

Definition camera_calls (cam ob : ID) : list call :=
  [Cameras_new "MyCam" cam; Objects_new "MyCam" cam ob; Objects_link ob;
   Set_scene_camera (Some ob); Set_rotation_euler ob camera_rotation].

Definition import_args (fbx_path : string) : fbx_args :=
  mkFbxArgs "Y" "Z" 0.001%float fbx_path true 0.1%float.

Definition frame_calls (cam : ID) (a : float) : list call :=
  [Get_angle cam a; Get_angle cam a; Set_angle cam (a * 0.95)%float;
   Camera_to_view_selected; Set_angle cam a].

Definition lighting_calls (w : ID) (n : node_ref) (img : ID) (hdr_path : string)
    : list call :=
  [Worlds_new "World" w; Set_scene_world w; Set_use_nodes w true;
   Set_input_default w (NodeNamed "Background") "Strength" 1.5%float;
   Nodes_new w "ShaderNodeTexEnvironment" n;
   Images_load hdr_path img;
   Set_node_image w n img;
   Set_node_projection w n "MIRROR_BALL";
   Links_new w (Output n "Color") (Input (NodeNamed "Background") "Color");
   Set_sample_as_light w true;
   Set_sample_map_resolution w 512;
   Set_visibility_camera w false].

(** The world [render_hdr_set] leaves, from the one the host created. *)
Definition lit_world (w0 : World) (img : ID) : World :=
  mkWorld (world_name w0) true
    (nodes_added w0 ++ [mkShaderNode "ShaderNodeTexEnvironment" (Some img)
                          (Some "MIRROR_BALL")])
    ((NodeNamed "Background", "Strength", 1.5%float) :: input_default w0)
    (links w0 ++ [(Output (NodeAdded (length (nodes_added w0))) "Color",
                   Input (NodeNamed "Background") "Color")])
    true 512 false.

(** The value the script last stored in an input socket. *)
Fixpoint input_value (n : node_ref) (input : string)
    (l : list (node_ref * string * float)) : option float :=
  match l with
  | [] => None
  | (n', input', v) :: l' =>
      if decide (n' = n) then
        if String.eqb input' input then Some v else input_value n input l'
      else input_value n input l'
  end.

(** A block of calls: not empty, and all of one step. *)
Definition block (s : step) (l : list call) : Prop :=
  l <> [] /\ Forall (fun c => step_of c = s) l.

(** ** The session after each block *)

Section States.

Context {Env : Type} (host : Host Env).

Abbreviation M := (M Env).
Abbreviation Blend := (Blend Env).

(** A program that returns [a] from [b], leaving [b'] and issuing [t]. *)
Definition returns {A} (m : M A) (b : Blend) (a : A) (b' : Blend) (t : list call)
    : Prop :=
  m b = mkRun (Normal a) b' t.

Definition when (c : bool) (f : Blend -> Blend) : Blend -> Blend :=
  if c then f else fun b => b.

(** The session after the objects [obs] are unlinked one by one. *)
Definition unlinked (obs : list ID) (b : Blend) : Blend :=
  fold_left (fun b ob => with_objects (filter (fun o => o <> ob)) b) obs b.

Definition cleared (b : Blend) : Blend :=
  unlinked (objects (scene b)) (store_camera None b).

Definition configured (size_x size_y samples : option Z) (render_path : option string)
    (b : Blend) : Blend :=
  when (truthy_int size_y) (store_resolution_y (int_of size_y))
    (when (truthy_int size_x) (store_resolution_x (int_of size_x))
       (store_film_transparent true
          (store_color_mode "RGBA"
             (when (truthy_int samples) (store_samples (int_of samples))
                (when (truthy_str render_path) (store_filepath (str_of render_path))
                   (store_resolution_percentage 100%float
                      (store_engine "CYCLES" b))))))).

Definition with_new_camera (b : Blend) : Blend :=
  let cam := length (cameras (data b)) in
  let ob := length (data_objects (data b)) in
  let b1 := with_cameras (fun l => l ++ [fresh_camera host "MyCam" b]) b in
  let b2 := with_data_objects (fun l => l ++ [fresh_object host "MyCam" cam b1]) b1 in
  with_object ob (store_rotation_euler camera_rotation)
    (store_camera (Some ob) (with_objects (fun l => l ++ [ob]) b2)).

Definition is_set_up (fbx_path : string) (size_x size_y samples : option Z)
    (render_path : option string) (b : Blend) : Blend :=
  import_scene_fbx host (import_args fbx_path)
    (with_new_camera (configured size_x size_y samples render_path (cleared b))).

Definition with_framing (cam : ID) (b : Blend) : Blend :=
  let a := angle (camera_at b cam) in
  with_camera cam (store_angle a)
    (camera_to_view_selected host
       (with_camera cam (store_angle (a * 0.95)%float) b)).

Definition is_framed (fbx_path : string) (size_x size_y samples : option Z)
    (render_path : option string) (b : Blend) : Blend :=
  with_framing (length (cameras (data b)))
    (is_set_up fbx_path size_x size_y samples render_path b).

Definition with_lighting (hdr_path : string) (b : Blend) : Blend :=
  let w0 := fresh_world host "World" b in
  with_images (fun l => l ++ [mkImage hdr_path])
    (store_world (Some (length (worlds (data b))))
       (with_worlds (fun l => l ++ [lit_world w0 (length (images (data b)))]) b)).

Definition is_prepared (fbx_path : string) (hdr_path : option string)
    (size_x size_y samples : option Z) (render_path : option string) (b : Blend)
    : Blend :=
  when (truthy_str hdr_path) (with_lighting (str_of hdr_path))
    (is_framed fbx_path size_x size_y samples render_path b).

(** The calls of [render_hdr_set] from the session [b]. *)
Definition lighting_calls_at (hdr_path : string) (b : Blend) : list call :=
  lighting_calls (length (worlds (data b)))
    (NodeAdded (length (nodes_added (fresh_world host "World" b))))
    (length (images (data b))) hdr_path.

(** The calls of lines 80-126 from the session [b]. *)
Definition framed_calls (fbx_path : string) (size_x size_y samples : option Z)
    (render_path : option string) (b : Blend) : list call :=
  let cam := length (cameras (data b)) in
  clear_calls (objects (scene b))
  ++ configure_calls size_x size_y samples render_path
  ++ camera_calls cam (length (data_objects (data b)))
  ++ [Import_scene_fbx (import_args fbx_path)]
  ++ frame_calls cam
       (angle (camera_at (is_set_up fbx_path size_x size_y samples render_path b) cam)).

(** What [finish] does from the session [b]. *)
Definition finish_run (save_path render_path : option string) (b : Blend) : run Env unit :=
  let rendering := if truthy_str render_path then [Render_render true] else [] in
  if truthy_str save_path then
    match open_w host (str_of save_path) (env b) with
    | Some e =>
        mkRun (Normal tt)
          (when (truthy_str render_path) (render_render host true)
             (save_as_mainfile host (str_of save_path)
                (mkBlend (scene b) (data b) e)))
          ([Open_w (str_of save_path) true; Save_as_mainfile (str_of save_path)]
           ++ rendering)
    | None =>
        mkRun (Raised (UnboundLocalError "ok")) b
          [Open_w (str_of save_path) false;
           Print_fmt "Cannot save to path %r" (str_of save_path);
           Print_exc]
    end
  else
    mkRun (Normal tt) (when (truthy_str render_path) (render_render host true) b)
      rendering.

(** An operator of the host that leaves the camera datablocks alone, one
    that leaves their number alone, and one that leaves the render and
    cycles settings of the scene alone. *)
Definition keeps_cameras (f : Blend -> Blend) : Prop :=
  forall b, cameras (data (f b)) = cameras (data b).

Definition keeps_camera_count (f : Blend -> Blend) : Prop :=
  forall b, length (cameras (data (f b))) = length (cameras (data b)).

Definition keeps_settings (f : Blend -> Blend) : Prop :=
  forall b, scene_render (scene (f b)) = scene_render (scene b) /\
            scene_cycles (scene (f b)) = scene_cycles (scene b).

(** The operators the script calls leave the settings to the script. *)
Definition leaves_settings : Prop :=
  (forall a, keeps_settings (import_scene_fbx host a)) /\
  keeps_settings (camera_to_view_selected host) /\
  (forall p, keeps_settings (save_as_mainfile host p)) /\
  keeps_settings (render_render host true).

End States.

(** * Facts *)

Ltac run_script :=
  cbv beta iota zeta delta
    [mbind mret M_bind M_ret bind ret raise try_except hostcall perform
     returns when
     set_scene_camera objects_unlink objects_link scene_objects set_engine
     set_resolution_percentage set_filepath set_samples set_color_mode
     set_film_transparent set_resolution_x set_resolution_y cameras_new
     objects_new set_rotation_euler import_scene_fbx_op get_angle set_angle
     camera_to_view_selected_op worlds_new set_scene_world set_use_nodes
     set_input_default nodes_new images_load set_node_image
     set_node_projection links_new set_sample_as_light
     set_sample_map_resolution set_visibility_camera print print_fmt
     print_exc print_help save_as_mainfile_op render_render_op
     render_hdr_set make_camera import_model frame_camera configure
     save_scene finish lighting open_close
     with_scene with_data with_render with_cycles with_objects store_camera
     store_world store_engine store_resolution_percentage store_filepath
     store_resolution_x store_resolution_y store_color_mode store_samples
     store_film_transparent with_cameras with_data_objects with_worlds
     with_images with_camera with_object with_world store_angle
     store_rotation_euler store_use_nodes with_nodes_added
     store_input_default add_link store_sample_as_light
     store_sample_map_resolution store_visibility_camera with_node
     store_node_image store_node_projection camera_at
     configured with_new_camera with_framing with_lighting lit_world
     finish_run
     clear_calls configure_calls camera_calls frame_calls lighting_calls
     lighting_calls_at
     scene data env cameras data_objects worlds images
     camera objects world scene_render scene_cycles
     world_name use_nodes nodes_added input_default links
     sample_as_light sample_map_resolution visibility_camera
     node_type node_image node_projection
     engine resolution_percentage filepath resolution_x resolution_y color_mode
     samples film_transparent cam_name angle ob_name object_data rotation_euler
     res final trace default from_option id];
  cbn [app].

Lemma alter_snoc {A} (f : A -> A) (l : list A) (x : A) :
  alter f (length l) (l ++ [x]) = l ++ [f x].
Proof.
  rewrite <- (Nat.add_0_r (length l)).
  now rewrite alter_app_r.
Qed.

Lemma lookup_snoc {A} (l : list A) (x : A) :
  (l ++ [x]) !! length l = Some x.
Proof.
  rewrite lookup_app_r by lia.
  now rewrite Nat.sub_diag.
Qed.

Ltac snoc := repeat (progress (rewrite ?alter_snoc, ?lookup_snoc; run_script)).

Section Runs.

Context {Env : Type} (host : Host Env).

Abbreviation M := (M Env).
Abbreviation Blend := (Blend Env).

Lemma returns_bind {A B} (m : M A) (k : A -> M B) b a b1 t1 :
  returns m b a b1 t1 ->
  (m ≫= k) b = mkRun (res (k a b1)) (final (k a b1)) (t1 ++ trace (k a b1)).
Proof.
  unfold returns, mbind, M_bind, bind. intros ->. now destruct (k a b1).
Qed.

Lemma returns_bind_returns {A B} (m : M A) (k : A -> M B) b a b1 t1 c b2 t2 :
  returns m b a b1 t1 ->
  returns (k a) b1 c b2 t2 ->
  returns (m ≫= k) b c b2 (t1 ++ t2).
Proof.
  intros Hm Hk. unfold returns. rewrite (returns_bind _ _ _ _ _ _ Hm).
  unfold returns in Hk. now rewrite Hk.
Qed.

Lemma returns_run {A} (m : M A) b a b' t :
  returns m b a b' t -> res (m b) = Normal a /\ final (m b) = b' /\ trace (m b) = t.
Proof. unfold returns. intros ->. auto. Qed.

Lemma for_each_unlink (obs : list ID) (b : Blend) :
  returns (for_each obs objects_unlink) b tt (unlinked obs b) (map Objects_unlink obs).
Proof.
  revert b. induction obs as [|ob obs IH]; intros b.
  - reflexivity.
  - unfold returns. cbn [for_each].
    unfold bind. cbn. rewrite (IH _). reflexivity.
Qed.

Lemma clear_scene_returns (b : Blend) :
  returns clear_scene b tt (cleared b) (clear_calls (objects (scene b))).
Proof.
  unfold returns, clear_scene, cleared, mbind, M_bind, bind. cbn.
  rewrite (for_each_unlink _ _). reflexivity.
Qed.

Lemma data_unlinked (obs : list ID) (b : Blend) :
  data (unlinked obs b) = data b /\
  scene_render (scene (unlinked obs b)) = scene_render (scene b) /\
  scene_cycles (scene (unlinked obs b)) = scene_cycles (scene b) /\
  camera (scene (unlinked obs b)) = camera (scene b) /\
  world (scene (unlinked obs b)) = world (scene b) /\
  env (unlinked obs b) = env b.
Proof.
  revert b. unfold unlinked.
  induction obs as [|ob obs IH]; intros b; cbn [fold_left].
  - repeat split.
  - destruct (IH (with_objects (filter (fun o => o <> ob)) b))
      as (-> & -> & -> & -> & -> & ->).
    repeat split.
Qed.

Lemma data_cleared (b : Blend) : data (cleared b) = data b.
Proof. unfold cleared. now rewrite (proj1 (data_unlinked _ _)). Qed.

Lemma data_configured sx sy smp rp (b : Blend) :
  data (configured sx sy smp rp b) = data b.
Proof.
  unfold configured, when.
  destruct (truthy_int sy), (truthy_int sx), (truthy_int smp), (truthy_str rp);
    reflexivity.
Qed.

Lemma configure_returns sx sy smp rp (b : Blend) :
  returns (configure sx sy smp rp) b tt (configured sx sy smp rp b)
    (configure_calls sx sy smp rp).
Proof.
  unfold returns, configure, configured, configure_calls, when.
  destruct (truthy_int sy), (truthy_int sx), (truthy_int smp), (truthy_str rp);
    reflexivity.
Qed.

Lemma make_camera_returns (b : Blend) :
  returns (make_camera host) b (length (cameras (data b))) (with_new_camera host b)
    (camera_calls (length (cameras (data b))) (length (data_objects (data b)))).
Proof. reflexivity. Qed.

Lemma import_model_returns fbx (b : Blend) :
  returns (import_model host fbx) b tt (import_scene_fbx host (import_args fbx) b)
    [Import_scene_fbx (import_args fbx)].
Proof. reflexivity. Qed.

Lemma set_up_returns fbx sx sy smp rp (b : Blend) :
  returns (set_up host fbx sx sy smp rp) b (length (cameras (data b)))
    (is_set_up host fbx sx sy smp rp b)
    (clear_calls (objects (scene b)) ++ configure_calls sx sy smp rp
     ++ camera_calls (length (cameras (data b))) (length (data_objects (data b)))
     ++ [Import_scene_fbx (import_args fbx)]).
Proof.
  unfold set_up.
  eapply returns_bind_returns; [apply clear_scene_returns|].
  eapply returns_bind_returns; [apply configure_returns|].
  pose proof (make_camera_returns (configured sx sy smp rp (cleared b))) as Hc.
  rewrite data_configured, data_cleared in Hc.
  replace (camera_calls _ _ ++ _) with
    (camera_calls (length (cameras (data b))) (length (data_objects (data b)))
     ++ [Import_scene_fbx (import_args fbx)] ++ []) by reflexivity.
  eapply returns_bind_returns; [exact Hc|].
  eapply returns_bind_returns; [apply import_model_returns|].
  reflexivity.
Qed.

Lemma frame_camera_returns cam (b : Blend) :
  returns (frame_camera host cam) b tt (with_framing host cam b)
    (frame_calls cam (angle (camera_at b cam))).
Proof. reflexivity. Qed.

Lemma framed_returns fbx sx sy smp rp (b : Blend) :
  returns (framed host fbx sx sy smp rp) b tt (is_framed host fbx sx sy smp rp b)
    (framed_calls host fbx sx sy smp rp b).
Proof.
  unfold framed, framed_calls. cbv zeta.
  match goal with
  | |- returns _ _ _ _ (?c ++ ?f ++ ?m ++ ?i ++ ?fr) =>
      replace (c ++ f ++ m ++ i ++ fr) with ((c ++ f ++ m ++ i) ++ fr)
        by (now rewrite <- !app_assoc)
  end.
  eapply returns_bind_returns; [apply set_up_returns|].
  apply frame_camera_returns.
Qed.

Lemma render_hdr_set_returns hdr (b : Blend) :
  returns (render_hdr_set host hdr) b tt (with_lighting host hdr b)
    (lighting_calls_at host hdr b).
Proof.
  destruct (fresh_world host "World" b) as [nm un na idf lk sal smr vc] eqn:Hw.
  destruct b as [[c o w r cy] [cs os ws ims] e].
  run_script. rewrite Hw. snoc. reflexivity.
Qed.

Lemma lighting_returns hdr (b : Blend) :
  returns (lighting host hdr) b tt
    (when (truthy_str hdr) (with_lighting host (str_of hdr)) b)
    (if truthy_str hdr then lighting_calls_at host (str_of hdr) b else []).
Proof.
  unfold lighting, when. destruct (truthy_str hdr).
  - apply render_hdr_set_returns.
  - reflexivity.
Qed.

Lemma prepare_returns fbx hdr sx sy smp rp (b : Blend) :
  returns (prepare host fbx hdr sx sy smp rp) b tt
    (is_prepared host fbx hdr sx sy smp rp b)
    (framed_calls host fbx sx sy smp rp b
     ++ (if truthy_str hdr
         then lighting_calls_at host (str_of hdr) (is_framed host fbx sx sy smp rp b)
         else [])).
Proof.
  unfold prepare.
  eapply returns_bind_returns; [apply framed_returns|].
  apply lighting_returns.
Qed.

Lemma finish_is_finish_run save rp (b : Blend) :
  finish host save rp b = finish_run host save rp b.
Proof.
  unfold finish, finish_run, save_scene. destruct b as [s d e].
  destruct (truthy_str save), (truthy_str rp); run_script;
    try destruct (open_w host (str_of save) e); run_script; reflexivity.
Qed.

(** Programs that run alike from every session. *)
#[local] Instance bind_proper {A B} :
  Proper (pointwise_relation A (pointwise_relation Blend eq)
          ==> pointwise_relation Blend eq ==> pointwise_relation Blend eq)
    (@mbind M _ A B).
Proof.
  intros k k' Hk m m' Hm b. unfold mbind, M_bind, bind.
  rewrite (Hm b). destruct (m' b) as [[a|e] b1 t1]; [|reflexivity].
  now rewrite (Hk a b1).
Qed.

Lemma bind_assoc {A B C} (m : M A) (f : A -> M B) (g : B -> M C) :
  pointwise_relation Blend eq ((m ≫= f) ≫= g) (m ≫= fun x => f x ≫= g).
Proof.
  intros b. unfold mbind, M_bind, bind.
  destruct (m b) as [[a|e] b1 t1]; [|reflexivity].
  destruct (f a b1) as [[x|e] b2 t2]; [|reflexivity].
  destruct (g x b2) as [r b3 t3]. now rewrite app_assoc.
Qed.

Lemma ret_bind {A B} (a : A) (f : A -> M B) :
  pointwise_relation Blend eq (mret a ≫= f) (f a).
Proof.
  intros b. unfold mbind, mret, M_bind, M_ret, bind, ret.
  now destruct (f a b).
Qed.

Lemma render_is_blocks fbx hdr sx sy smp save rp :
  pointwise_relation Blend eq
    (render host fbx hdr sx sy smp save rp)
    (render_blocks host fbx hdr sx sy smp save rp).
Proof.
  unfold render, render_blocks, prepare, framed, set_up, lighting, finish,
    save_scene, clear_scene, configure, make_camera, import_model, frame_camera.
  cbv zeta.
  repeat lazymatch goal with
    | |- pointwise_relation _ eq _ (mbind _ (mbind _ _)) =>
        etransitivity; [|symmetry; apply bind_assoc]
    | |- pointwise_relation _ eq _ (mbind _ (mret _)) =>
        etransitivity; [|symmetry; apply ret_bind]; cbv beta
    | |- pointwise_relation _ eq (mbind _ _) (mbind _ _) =>
        apply bind_proper; [intros ?|reflexivity]; cbv beta
    end.
  reflexivity.
Qed.

Lemma render_run fbx hdr sx sy smp save rp (b : Blend) :
  let b' := is_prepared host fbx hdr sx sy smp rp b in
  render host fbx hdr sx sy smp save rp b =
  mkRun (res (finish_run host save rp b')) (final (finish_run host save rp b'))
    (trace (prepare host fbx hdr sx sy smp rp b)
     ++ trace (finish_run host save rp b')).
Proof.
  intros b'. rewrite (render_is_blocks fbx hdr sx sy smp save rp b).
  unfold render_blocks.
  rewrite (returns_bind _ _ _ _ _ _ (prepare_returns fbx hdr sx sy smp rp b)).
  fold b'. rewrite finish_is_finish_run.
  now rewrite (proj2 (proj2 (returns_run _ _ _ _ _ (prepare_returns fbx hdr sx sy smp rp b)))).
Qed.

End Runs.

(** ** Steps of a trace made of blocks *)

Lemma steps_block (s : step) (l t : list call) (st : list step) :
  block s l -> steps t = st -> head st <> Some s -> steps (l ++ t) = s :: st.
Proof.
  intros [Hne Hall] <- Hhd.
  induction l as [|c l IH]; [congruence|].
  apply Forall_cons in Hall as [Hc Hall].
  destruct l as [|c' l].
  - cbn. rewrite Hc. destruct (steps t) as [|s' st'] eqn:Ht; [reflexivity|].
    destruct (decide (s = s')) as [->|Hs]; [|reflexivity].
    now cbn in Hhd.
  - change (steps ((c :: c' :: l) ++ t))
      with (match steps ((c' :: l) ++ t) with
            | (s' :: _) as r => if decide (step_of c = s') then r else step_of c :: r
            | [] => [step_of c]
            end).
    rewrite IH by (congruence || assumption).
    rewrite Hc. now rewrite decide_True.
Qed.

Lemma steps_last_block (s : step) (l : list call) :
  block s l -> steps l = [s].
Proof.
  intros Hb. rewrite <- (app_nil_r l).
  now apply steps_block.
Qed.

Lemma clear_block (obs : list ID) : block Clear (clear_calls obs).
Proof.
  split; [discriminate|].
  constructor; [reflexivity|].
  induction obs as [|ob obs IH]; cbn [map]; constructor; [reflexivity|exact IH].
Qed.

Lemma configure_block sx sy smp rp : block Configure (configure_calls sx sy smp rp).
Proof.
  unfold configure_calls. split; [discriminate|].
  destruct (truthy_str rp), (truthy_int smp), (truthy_int sx), (truthy_int sy);
    repeat constructor.
Qed.

Lemma camera_block cam ob : block Make_camera (camera_calls cam ob).
Proof. split; [discriminate|repeat constructor]. Qed.

Lemma import_block a : block Import [Import_scene_fbx a].
Proof. split; [discriminate|repeat constructor]. Qed.

Lemma frame_block cam a : block Frame (frame_calls cam a).
Proof. split; [discriminate|repeat constructor]. Qed.

Lemma lighting_block w n img hdr : block Lighting (lighting_calls w n img hdr).
Proof. split; [discriminate|repeat constructor]. Qed.

Lemma save_block p : block Save [Open_w p true; Save_as_mainfile p].
Proof. split; [discriminate|repeat constructor]. Qed.

Lemma failed_save_block p :
  block Save [Open_w p false; Print_fmt "Cannot save to path %r" p; Print_exc].
Proof. split; [discriminate|repeat constructor]. Qed.

Lemma render_block : block Render_image [Render_render true].
Proof. split; [discriminate|repeat constructor]. Qed.

Lemma report_block text : block Report [Print text].
Proof. split; [discriminate|repeat constructor]. Qed.

Create HintDb blocks.

#[local] Hint Resolve clear_block configure_block camera_block import_block
  frame_block lighting_block save_block failed_save_block render_block
  report_block : blocks.

(** Reads off the steps of a trace written as blocks appended in order. *)
Ltac steps_of_blocks :=
  lazymatch goal with
  | |- steps [] = _ => reflexivity
  | |- steps (_ ++ _) = _ =>
      eapply steps_block;
      [ solve [unfold lighting_calls_at; auto with blocks]
      | steps_of_blocks
      | cbn; congruence ]
  | |- steps _ = _ =>
      eapply steps_last_block;
      solve [unfold lighting_calls_at; auto with blocks]
  end.

(** ** Picking calls out of a trace *)

Lemma filter_unlink (p : call -> bool) (obs : list ID) :
  (forall ob, p (Objects_unlink ob) = false) ->
  List.filter p (map Objects_unlink obs) = [].
Proof.
  intros Hp. induction obs as [|ob obs IH]; [reflexivity|].
  cbn [map List.filter]. now rewrite Hp.
Qed.

Lemma filter_if {A} (p : A -> bool) (c : bool) (l1 l2 : list A) :
  List.filter p (if c then l1 else l2)
  = if c then List.filter p l1 else List.filter p l2.
Proof. now destruct c. Qed.

Lemma if_same {A} (c : bool) (x : A) : (if c then x else x) = x.
Proof. now destruct c. Qed.

(** Picks the calls a selector keeps out of a trace written as the blocks
    of the script. *)
Ltac select_calls :=
  unfold calls_where, clear_calls, configure_calls, camera_calls, frame_calls,
    lighting_calls_at, lighting_calls;
  repeat (progress
            (rewrite ?List.filter_app, ?filter_if;
             rewrite ?filter_unlink by reflexivity;
             cbn [List.filter app is_import is_save is_render is_set_filepath
                  is_set_samples is_set_resolution_x is_set_resolution_y
                  is_set_color_mode is_set_film_transparent is_set_rotation_euler
                  is_set_angle]));
  rewrite ?if_same, ?app_nil_r;
  cbn [app];
  repeat match goal with
         | |- context [if ?c then _ else _] => destruct c
         end;
  cbn [app].

Section Claims.

Context {Env : Type} (host : Host Env).

Abbreviation Blend := (Blend Env).

Lemma prepare_trace fbx hdr sx sy smp rp (b : Blend) :
  trace (prepare host fbx hdr sx sy smp rp b) =
  clear_calls (objects (scene b))
  ++ configure_calls sx sy smp rp
  ++ camera_calls (length (cameras (data b))) (length (data_objects (data b)))
  ++ [Import_scene_fbx (import_args fbx)]
  ++ frame_calls (length (cameras (data b)))
       (angle (camera_at (is_set_up host fbx sx sy smp rp b) (length (cameras (data b)))))
  ++ (if truthy_str hdr
      then lighting_calls_at host (str_of hdr) (is_framed host fbx sx sy smp rp b)
      else []).
Proof.
  destruct (returns_run _ _ _ _ _ (prepare_returns host fbx hdr sx sy smp rp b))
    as (_ & _ & ->).
  unfold framed_calls. cbv zeta. now rewrite <- !app_assoc.
Qed.

Lemma prepare_steps fbx hdr sx sy smp rp (b : Blend) (t : list call) (st : list step) :
  steps t = st ->
  head st <> Some Frame -> head st <> Some Lighting ->
  steps (trace (prepare host fbx hdr sx sy smp rp b) ++ t) =
  [Clear; Configure; Make_camera; Import; Frame]
  ++ opt_step (truthy_str hdr) Lighting ++ st.
Proof.
  intros Ht Hf Hl. rewrite prepare_trace. unfold opt_step.
  destruct (truthy_str hdr); rewrite <- ?app_assoc, ?app_nil_l;
    repeat (eapply steps_block;
            [solve [unfold lighting_calls_at; auto with blocks]| |]);
    try exact Ht; cbn; congruence.
Qed.

Lemma finish_cases save rp (b : Blend) :
  let r := finish_run host save rp b in
  let p := str_of save in
  (res r = Normal tt /\
   trace r = (if truthy_str save then [Open_w p true; Save_as_mainfile p] else [])
             ++ (if truthy_str rp then [Render_render true] else []))
  \/
  (res r = Raised (UnboundLocalError "ok") /\ final r = b /\
   truthy_str save = true /\ open_w host p (env b) = None /\
   trace r = [Open_w p false; Print_fmt "Cannot save to path %r" p; Print_exc]).
Proof.
  unfold finish_run. cbv zeta.
  destruct (truthy_str save);
    [destruct (open_w host (str_of save) (env b)) eqn:Ho|];
    cbn [res trace final].
  - left. now split.
  - right. now repeat split.
  - left. now split.
Qed.

Lemma prepare_final fbx hdr sx sy smp rp (b : Blend) :
  final (prepare host fbx hdr sx sy smp rp b) = is_prepared host fbx hdr sx sy smp rp b.
Proof.
  destruct (returns_run _ _ _ _ _ (prepare_returns host fbx hdr sx sy smp rp b))
    as (_ & H & _).
  exact H.
Qed.

Lemma render_steps fbx hdr sx sy smp save rp (b : Blend) :
  let r := render host fbx hdr sx sy smp save rp b in
  (res r = Normal tt /\ steps (trace r) = fixed_order hdr save rp)
  \/
  (res r = Raised (UnboundLocalError "ok") /\ truthy_str save = true /\
   steps (trace r) =
     [Clear; Configure; Make_camera; Import; Frame]
     ++ opt_step (truthy_str hdr) Lighting ++ [Save]).
Proof.
  cbv zeta. rewrite render_run. cbv zeta. cbn [res trace].
  set (b' := is_prepared host fbx hdr sx sy smp rp b).
  destruct (finish_cases save rp b') as [(-> & ->)|(-> & _ & Hs & _ & ->)].
  - left. split; [reflexivity|].
    unfold fixed_order.
    apply prepare_steps;
      destruct (truthy_str save), (truthy_str rp);
      first [reflexivity | cbn; congruence].
  - right. split; [reflexivity|]. split; [exact Hs|].
    apply prepare_steps; first [reflexivity | cbn; congruence].
Qed.

(** C1, as amended.  In every run of [render] the steps taken are an
    initial part of the fixed order clear, configure, camera, import, frame,
    lighting (if an HDR path is given), save (if a save path is given),
    render (if a render path is given), so no other order is possible; the
    run starts by unsetting the scene camera and unlinking every object
    linked to the scene; the host save is called, once, exactly when a save
    path is given and can be opened for writing; and a run that is not
    aborted takes every step of the fixed order, calling the host render
    once when a render path is given. *)
Theorem render_steps_in_fixed_order fbx hdr sx sy smp save rp (b : Blend) :
  let r := render host fbx hdr sx sy smp save rp b in
  steps (trace r) `prefix_of` fixed_order hdr save rp /\
  clear_calls (objects (scene b)) `prefix_of` trace r /\
  calls_where is_save (trace r) =
    (if truthy_str save then
       match open_w host (str_of save)
               (env (final (prepare host fbx hdr sx sy smp rp b))) with
       | Some _ => [Save_as_mainfile (str_of save)]
       | None => []
       end
     else []) /\
  (res r = Normal tt ->
   steps (trace r) = fixed_order hdr save rp /\
   calls_where is_render (trace r) =
     (if truthy_str rp then [Render_render true] else [])).
Proof.
  intros r.
  pose proof (render_steps fbx hdr sx sy smp save rp b) as Hsteps.
  cbv zeta in Hsteps. fold r in Hsteps.
  split; [|split; [|split]].
  - destruct Hsteps as [(_ & ->)|(_ & Hs & ->)]; [reflexivity|].
    unfold fixed_order. rewrite Hs. cbn [opt_step].
    exists (opt_step (truthy_str rp) Render_image).
    now rewrite <- !app_assoc.
  - subst r. rewrite render_run. cbv zeta. cbn [trace].
    rewrite prepare_trace, <- !app_assoc. eexists. reflexivity.
  - subst r. rewrite prepare_final, render_run. cbv zeta.
    rewrite prepare_trace. unfold finish_run.
    destruct (truthy_str save);
      [destruct (open_w host (str_of save)
                   (env (is_prepared host fbx hdr sx sy smp rp b)))|];
      cbn [trace]; select_calls; reflexivity.
  - intros Hres.
    destruct Hsteps as [(_ & Hst)|(Hr & _)]; [|congruence].
    split; [exact Hst|].
    subst r. revert Hres. rewrite render_run. cbv zeta. cbn [res trace].
    set (b' := is_prepared host fbx hdr sx sy smp rp b).
    destruct (finish_cases save rp b') as [(_ & ->)|(-> & _)]; [|congruence].
    intros _. rewrite prepare_trace.
    select_calls; reflexivity.
Qed.

(** [main] with the arguments it passes on to [render] and to [prepare]. *)
Abbreviation render_of ns :=
  (render host (str_of (fbx_path ns)) (hdr_path ns) (size_x ns) (size_y ns)
     (ns_samples ns) (save_path ns) (render_path ns)).

Abbreviation prepare_of ns :=
  (prepare host (str_of (fbx_path ns)) (hdr_path ns) (size_x ns) (size_y ns)
     (ns_samples ns) (render_path ns)).

Abbreviation is_prepared_of ns :=
  (is_prepared host (str_of (fbx_path ns)) (hdr_path ns) (size_x ns) (size_y ns)
     (ns_samples ns) (render_path ns)).

Lemma main_run argv ns (b : Blend) :
  parse_args host (script_args argv) = Some ns ->
  script_args argv <> [] ->
  truthy_str (fbx_path ns) = true ->
  main host argv b =
  match res (render_of ns b) with
  | Normal _ =>
      mkRun (Normal tt) (final (render_of ns b))
        (trace (render_of ns b) ++ [Print "batch job finished, exiting"])
  | Raised e => mkRun (Raised e) (final (render_of ns b)) (trace (render_of ns b))
  end.
Proof.
  intros Hparse Hargs Hfbx. unfold main, parse_args_call. cbv zeta.
  rewrite Hparse. destruct (script_args argv) as [|a rest]; [congruence|].
  cbv beta iota delta [mbind mret M_bind M_ret bind ret].
  rewrite Hfbx. cbn [negb].
  unfold print, perform, hostcall.
  destruct (render_of ns b) as [[[]|e] b1 t1]; reflexivity.
Qed.

(** C2, as amended.  In a run of [main] that reaches [render] (the
    arguments after [--] are not empty and parse, and [--fbx] names a file)
    and is not aborted, the host save is called, once and with the [--save]
    path, exactly when [--save] holds a non-empty path, and the host render
    is called, once and with [write_still=True], exactly when [--render]
    holds a non-empty path; the save and the render are the last calls
    before the closing message, after the calls of the other steps, which
    do not depend on [--save] and are taken in the same order whichever
    flags are given. *)
Theorem save_and_render_follow_flags argv ns (b : Blend) :
  parse_args host (script_args argv) = Some ns ->
  script_args argv <> [] ->
  truthy_str (fbx_path ns) = true ->
  res (main host argv b) = Normal tt ->
  let t := trace (main host argv b) in
  let saving :=
    if truthy_str (save_path ns)
    then [Open_w (str_of (save_path ns)) true;
          Save_as_mainfile (str_of (save_path ns))]
    else [] in
  let rendering :=
    if truthy_str (render_path ns) then [Render_render true] else [] in
  calls_where is_save t =
    (if truthy_str (save_path ns)
     then [Save_as_mainfile (str_of (save_path ns))] else []) /\
  calls_where is_render t =
    (if truthy_str (render_path ns) then [Render_render true] else []) /\
  t = trace (prepare_of ns b) ++ saving ++ rendering
      ++ [Print "batch job finished, exiting"] /\
  steps t = fixed_order (hdr_path ns) (save_path ns) (render_path ns) ++ [Report].
Proof.
  intros Hparse Hargs Hfbx. rewrite (main_run _ _ _ Hparse Hargs Hfbx).
  rewrite render_run. cbv zeta. cbn [res final trace].
  destruct (finish_cases (save_path ns) (render_path ns) (is_prepared_of ns b))
    as [(-> & ->)|(-> & _)]; cbn [res trace]; [intros _|congruence].
  split; [|split; [|split]].
  - rewrite prepare_trace. select_calls; reflexivity.
  - rewrite prepare_trace. select_calls; reflexivity.
  - now rewrite <- !app_assoc.
  - rewrite <- !app_assoc. unfold fixed_order. rewrite <- !app_assoc.
    apply prepare_steps;
      destruct (truthy_str (save_path ns)), (truthy_str (render_path ns));
      first [reflexivity | cbn; congruence].
Qed.

Lemma framed_final fbx sx sy smp rp (b : Blend) :
  final (framed host fbx sx sy smp rp b) = is_framed host fbx sx sy smp rp b.
Proof.
  destruct (returns_run _ _ _ _ _ (framed_returns host fbx sx sy smp rp b))
    as (_ & H & _).
  exact H.
Qed.

Lemma lighting_in_render fbx hdr sx sy smp save rp (b : Blend) :
  truthy_str hdr = true ->
  exists before after,
    trace (render host fbx hdr sx sy smp save rp b) =
    before
    ++ trace (render_hdr_set host (str_of hdr) (final (framed host fbx sx sy smp rp b)))
    ++ after.
Proof.
  intros Hhdr. rewrite render_run. cbv zeta. cbn [trace].
  rewrite prepare_trace, framed_final.
  destruct (returns_run _ _ _ _ _
              (render_hdr_set_returns host (str_of hdr)
                 (is_framed host fbx sx sy smp rp b))) as (_ & _ & ->).
  destruct (truthy_str hdr); [|discriminate].
  exists (clear_calls (objects (scene b))
          ++ configure_calls sx sy smp rp
          ++ camera_calls (length (cameras (data b))) (length (data_objects (data b)))
          ++ [Import_scene_fbx (import_args fbx)]
          ++ frame_calls (length (cameras (data b)))
               (angle (camera_at (is_set_up host fbx sx sy smp rp b)
                         (length (cameras (data b)))))),
    (trace (finish_run host save rp (is_prepared host fbx hdr sx sy smp rp b))).
  now rewrite <- !app_assoc.
Qed.

Lemma lit_world_at hdr (b : Blend) :
  worlds (data (with_lighting host hdr b)) !! length (worlds (data b)) =
  Some (lit_world (fresh_world host "World" b) (length (images (data b)))).
Proof.
  change (worlds (data (with_lighting host hdr b)))
    with (worlds (data b)
          ++ [lit_world (fresh_world host "World" b) (length (images (data b)))]).
  apply lookup_snoc.
Qed.

(** C3.  When an HDR path is given, [render] sets the Strength input of
    the Background node of the new world to 1.5, enables sample_as_light
    on that world and sets its sample_map_resolution to 512: the three
    assignments are in the trace, and they hold in the session
    [render_hdr_set] leaves. *)
Theorem hdr_strength_and_map_resolution fbx hdr sx sy smp save rp (b : Blend) :
  truthy_str hdr = true ->
  let b1 := final (framed host fbx sx sy smp rp b) in
  let lit := final (render_hdr_set host (str_of hdr) b1) in
  let w := length (worlds (data b1)) in
  let t := trace (render host fbx hdr sx sy smp save rp b) in
  In (Set_input_default w (NodeNamed "Background") "Strength" 1.5%float) t /\
  In (Set_sample_as_light w true) t /\
  In (Set_sample_map_resolution w 512) t /\
  world (scene lit) = Some w /\
  exists wd,
    worlds (data lit) !! w = Some wd /\
    input_value (NodeNamed "Background") "Strength" (input_default wd)
      = Some 1.5%float /\
    sample_as_light wd = true /\
    sample_map_resolution wd = 512.
Proof.
  intros Hhdr b1 lit w t.
  destruct (lighting_in_render fbx hdr sx sy smp save rp b Hhdr)
    as (before & after & Ht).
  fold b1 t in Ht.
  destruct (returns_run _ _ _ _ _ (render_hdr_set_returns host (str_of hdr) b1))
    as (_ & Hfinal & Htrace).
  fold lit in Hfinal. rewrite Htrace in Ht.
  assert (Hin : forall c, In c (lighting_calls_at host (str_of hdr) b1) -> In c t).
  { intros c Hc. rewrite Ht. apply in_or_app. right. apply in_or_app. now left. }
  split; [|split; [|split; [|split]]].
  - apply Hin. unfold lighting_calls_at, lighting_calls. cbn [In]. tauto.
  - apply Hin. unfold lighting_calls_at, lighting_calls. cbn [In]. tauto.
  - apply Hin. unfold lighting_calls_at, lighting_calls. cbn [In]. tauto.
  - rewrite Hfinal. reflexivity.
  - exists (lit_world (fresh_world host "World" b1) (length (images (data b1)))).
    rewrite Hfinal. split; [apply lit_world_at|].
    split; [reflexivity|]. split; reflexivity.
Qed.

(** C7.  When an HDR path is given, [render] runs [render_hdr_set]: a
    world that did not exist is created and made the scene's world, with
    nodes enabled; a new Environment Texture node holds the image loaded
    from the HDR path, with MIRROR_BALL projection; its Color output is
    linked to the Color input of the Background node; and the world is not
    visible to the camera. *)
Theorem hdr_world_is_built fbx hdr sx sy smp save rp (b : Blend) :
  truthy_str hdr = true ->
  let p := str_of hdr in
  let b1 := final (framed host fbx sx sy smp rp b) in
  let run := render_hdr_set host p b1 in
  let w := length (worlds (data b1)) in
  let img := length (images (data b1)) in
  let n := length (nodes_added (fresh_world host "World" b1)) in
  (exists before after,
     trace (render host fbx hdr sx sy smp save rp b) = before ++ trace run ++ after) /\
  res run = Normal tt /\
  trace run = lighting_calls w (NodeAdded n) img p /\
  worlds (data b1) !! w = None /\
  world (scene (final run)) = Some w /\
  images (data (final run)) !! img = Some (mkImage p) /\
  exists wd,
    worlds (data (final run)) !! w = Some wd /\
    use_nodes wd = true /\
    nodes_added wd !! n
      = Some (mkShaderNode "ShaderNodeTexEnvironment" (Some img) (Some "MIRROR_BALL")) /\
    In (Output (NodeAdded n) "Color", Input (NodeNamed "Background") "Color")
      (links wd) /\
    visibility_camera wd = false.
Proof.
  intros Hhdr p b1 run w img n.
  destruct (returns_run _ _ _ _ _ (render_hdr_set_returns host p b1))
    as (Hres & Hfinal & Htrace).
  fold run in Hres, Hfinal, Htrace.
  split; [exact (lighting_in_render fbx hdr sx sy smp save rp b Hhdr)|].
  split; [exact Hres|]. split; [exact Htrace|].
  split; [now apply lookup_ge_None|].
  rewrite Hfinal.
  split; [reflexivity|]. split; [apply lookup_snoc|].
  exists (lit_world (fresh_world host "World" b1) img).
  split; [apply lit_world_at|]. split; [reflexivity|].
  split; [apply lookup_snoc|]. split; [|reflexivity].
  cbn [links lit_world]. apply in_or_app. right. now left.
Qed.

(** C4.  In every run of [render], whatever the arguments, the trace has
    one assignment to the colour mode, of 'RGBA', and one to
    film_transparent, of True; after the settings block they are the values
    of the scene. *)
Theorem alpha_is_unconditional fbx hdr sx sy smp save rp (b : Blend) :
  let t := trace (render host fbx hdr sx sy smp save rp b) in
  calls_where is_set_color_mode t = [Set_color_mode "RGBA"] /\
  calls_where is_set_film_transparent t = [Set_film_transparent true] /\
  forall b0 : Blend,
    color_mode (scene_render (scene (final (configure sx sy smp rp b0)))) = "RGBA" /\
    film_transparent (scene_cycles (scene (final (configure sx sy smp rp b0)))) = true.
Proof.
  cbv zeta. rewrite render_run. cbv zeta. cbn [trace]. rewrite prepare_trace.
  split; [|split].
  - destruct (finish_cases save rp (is_prepared host fbx hdr sx sy smp rp b))
      as [(_ & ->)|(_ & _ & _ & _ & ->)]; select_calls; reflexivity.
  - destruct (finish_cases save rp (is_prepared host fbx hdr sx sy smp rp b))
      as [(_ & ->)|(_ & _ & _ & _ & ->)]; select_calls; reflexivity.
  - intros b0.
    destruct (returns_run _ _ _ _ _ (configure_returns (Env:=Env) sx sy smp rp b0))
      as (_ & -> & _).
    unfold configured, when.
    destruct (truthy_int sy), (truthy_int sx), (truthy_int smp), (truthy_str rp);
      split; reflexivity.
Qed.

(** C5.  In every run of [render], whatever the arguments, the camera
    object the run creates is given the rotation (radians(60.0),
    radians(0.0), radians(170.0)): this is the one assignment to
    rotation_euler in the trace, and the value of the new object after the
    camera block. *)
Theorem camera_rotation_is_fixed fbx hdr sx sy smp save rp (b : Blend) :
  let t := trace (render host fbx hdr sx sy smp save rp b) in
  let cam := length (cameras (data b)) in
  let ob := length (data_objects (data b)) in
  In (Objects_new "MyCam" cam ob) t /\
  calls_where is_set_rotation_euler t =
    [Set_rotation_euler ob (radians 60, radians 0, radians 170)] /\
  (radians 60, radians 0, radians 170)
    = (1.0471975511965976, 0, 2.9670597283903604)%float /\
  forall b0 : Blend,
    rotation_euler <$>
      (data_objects (data (final (make_camera host b0)))
         !! length (data_objects (data b0)))
    = Some (radians 60, radians 0, radians 170).
Proof.
  cbv zeta. rewrite render_run. cbv zeta. cbn [trace]. rewrite prepare_trace.
  split; [|split; [|split]].
  - apply in_or_app. left. do 2 (apply in_or_app; right).
    apply in_or_app. left. cbn. tauto.
  - destruct (finish_cases save rp (is_prepared host fbx hdr sx sy smp rp b))
      as [(_ & ->)|(_ & _ & _ & _ & ->)]; select_calls; reflexivity.
  - reflexivity.
  - intros b0.
    destruct (returns_run _ _ _ _ _ (make_camera_returns host b0)) as (_ & -> & _).
    destruct b0 as [[c o w r cy] [cs os ws ims] e].
    run_script. snoc. reflexivity.
Qed.

Lemma render_imports_once fbx hdr sx sy smp save rp (b : Blend) :
  calls_where is_import (trace (render host fbx hdr sx sy smp save rp b)) =
  [Import_scene_fbx (mkFbxArgs "Y" "Z" 0.001%float fbx true 0.1%float)].
Proof.
  rewrite render_run. cbv zeta. cbn [trace]. rewrite prepare_trace.
  destruct (finish_cases save rp (is_prepared host fbx hdr sx sy smp rp b))
    as [(_ & ->)|(_ & _ & _ & _ & ->)]; select_calls; reflexivity.
Qed.

(** C6.  Every run of [render] calls the FBX importer exactly once, with
    the fbx path as filepath and axis_forward='Y', axis_up='Z',
    global_scale=0.001, use_alpha_decals=True, decal_offset=0.1; so does
    every run of [main] that is given an [--fbx] file, with that file. *)
Theorem fbx_imported_once :
  (forall fbx hdr sx sy smp save rp (b : Blend),
     calls_where is_import (trace (render host fbx hdr sx sy smp save rp b)) =
     [Import_scene_fbx (mkFbxArgs "Y" "Z" 0.001%float fbx true 0.1%float)]) /\
  (forall argv ns (b : Blend),
     parse_args host (script_args argv) = Some ns ->
     script_args argv <> [] ->
     truthy_str (fbx_path ns) = true ->
     calls_where is_import (trace (main host argv b)) =
     [Import_scene_fbx
        (mkFbxArgs "Y" "Z" 0.001%float (str_of (fbx_path ns)) true 0.1%float)]).
Proof.
  split; [exact render_imports_once|].
  intros argv ns b Hparse Hargs Hfbx.
  rewrite (main_run _ _ _ Hparse Hargs Hfbx).
  pose proof (render_imports_once (str_of (fbx_path ns)) (hdr_path ns) (size_x ns)
                (size_y ns) (ns_samples ns) (save_path ns) (render_path ns) b) as Hi.
  destruct (res (render_of ns b)); cbn [trace]; [|exact Hi].
  unfold calls_where in *. rewrite List.filter_app, Hi. reflexivity.
Qed.



(** C8.  In a run of [main] that reaches [render] with a save path that
    cannot be opened for writing, the script prints the message and the
    traceback and then raises UnboundLocalError for [ok]: the exception
    leaves [render] and [main], the host save and the host render are not
    called, and the session is the one the steps before left. *)
Theorem unwritable_save_path_aborts argv ns (b : Blend) :
  parse_args host (script_args argv) = Some ns ->
  script_args argv <> [] ->
  truthy_str (fbx_path ns) = true ->
  truthy_str (save_path ns) = true ->
  open_w host (str_of (save_path ns)) (env (final (prepare_of ns b))) = None ->
  let p := str_of (save_path ns) in
  let r := main host argv b in
  res r = Raised (UnboundLocalError "ok") /\
  r = render_of ns b /\
  trace r = trace (prepare_of ns b)
            ++ [Open_w p false; Print_fmt "Cannot save to path %r" p; Print_exc] /\
  final r = final (prepare_of ns b) /\
  calls_where is_save (trace r) = [] /\
  calls_where is_render (trace r) = [].
Proof.
  intros Hparse Hargs Hfbx Hsave Hopen. cbv zeta.
  rewrite (main_run _ _ _ Hparse Hargs Hfbx).
  rewrite prepare_final in Hopen |- *.
  rewrite render_run. cbv zeta. unfold finish_run.
  rewrite Hsave, Hopen. cbn [res final trace].
  split; [reflexivity|]. split; [reflexivity|]. split; [reflexivity|].
  split; [reflexivity|].
  rewrite prepare_trace. split; select_calls; reflexivity.
Qed.

Lemma cameras_with_camera cam f (b : Blend) :
  cameras (data (with_camera cam f b)) = alter f cam (cameras (data b)).
Proof. reflexivity. Qed.

Lemma framing_restores_angle cam (b : Blend) :
  keeps_camera_count (camera_to_view_selected host) ->
  angle (camera_at (with_framing host cam b) cam) = angle (camera_at b cam).
Proof.
  intros Hkeep. unfold with_framing. cbv zeta.
  set (a := angle (camera_at b cam)).
  set (b1 := with_camera cam (store_angle (a * 0.95)%float) b).
  unfold camera_at at 1. rewrite cameras_with_camera, list_lookup_alter_eq.
  destruct (_ !! _) as [c|] eqn:Hc; [reflexivity|].
  cbn [fmap option_fmap option_map default from_option angle].
  apply lookup_ge_None in Hc.
  rewrite Hkeep in Hc. subst b1.
  rewrite cameras_with_camera, length_alter in Hc.
  apply lookup_ge_None in Hc.
  subst a. unfold camera_at. rewrite Hc. reflexivity.
Qed.

Lemma cameras_with_lighting hdr (b : Blend) :
  cameras (data (with_lighting host hdr b)) = cameras (data b).
Proof. reflexivity. Qed.

Lemma cameras_finish save rp (b : Blend) :
  (forall p, keeps_cameras (save_as_mainfile host p)) ->
  keeps_cameras (render_render host true) ->
  cameras (data (final (finish_run host save rp b))) = cameras (data b).
Proof.
  intros Hsave Hrender. unfold finish_run, when. cbv zeta.
  destruct (truthy_str save), (truthy_str rp);
    try destruct (open_w host (str_of save) (env b));
    cbn [final]; rewrite ?Hrender, ?Hsave; reflexivity.
Qed.

(** C9.  [render] reads the angle of the new camera before framing, sets
    it to 0.95 times that for camera_to_view_selected, and sets it back;
    these are the only assignments to an angle in the run.  When the
    host's framing operator neither adds nor removes camera datablocks,
    the angle after the framing block is the angle before it, and when
    saving and rendering leave the camera datablocks alone it is still
    that at the end of [render]. *)
Theorem camera_angle_restored fbx hdr sx sy smp save rp (b : Blend) :
  keeps_camera_count (camera_to_view_selected host) ->
  (forall p, keeps_cameras (save_as_mainfile host p)) ->
  keeps_cameras (render_render host true) ->
  let cam := length (cameras (data b)) in
  let before := final (set_up host fbx sx sy smp rp b) in
  let a := angle (camera_at before cam) in
  res (set_up host fbx sx sy smp rp b) = Normal cam /\
  trace (frame_camera host cam before) =
    [Get_angle cam a; Get_angle cam a; Set_angle cam (a * 0.95)%float;
     Camera_to_view_selected; Set_angle cam a] /\
  calls_where is_set_angle (trace (render host fbx hdr sx sy smp save rp b)) =
    [Set_angle cam (a * 0.95)%float; Set_angle cam a] /\
  angle (camera_at (final (frame_camera host cam before)) cam) = a /\
  angle (camera_at (final (render host fbx hdr sx sy smp save rp b)) cam) = a.
Proof.
  intros Hframe Hsave Hrender. cbv zeta.
  destruct (returns_run _ _ _ _ _ (set_up_returns host fbx sx sy smp rp b))
    as (Hres & -> & _).
  set (cam := length (cameras (data b))) in *.
  set (b1 := is_set_up host fbx sx sy smp rp b).
  destruct (returns_run _ _ _ _ _ (frame_camera_returns host cam b1))
    as (_ & -> & ->).
  split; [exact Hres|]. split; [reflexivity|].
  split.
  { rewrite render_run. cbv zeta. cbn [trace]. rewrite prepare_trace.
    fold cam b1.
    destruct (finish_cases save rp (is_prepared host fbx hdr sx sy smp rp b))
      as [(_ & ->)|(_ & _ & _ & _ & ->)]; select_calls; reflexivity. }
  split; [now apply framing_restores_angle|].
  rewrite render_run. cbv zeta. cbn [final].
  unfold camera_at at 1. rewrite cameras_finish by assumption.
  assert (Hprep : cameras (data (is_prepared host fbx hdr sx sy smp rp b))
                  = cameras (data (with_framing host cam b1))).
  { unfold is_prepared, when.
    destruct (truthy_str hdr); [apply cameras_with_lighting|reflexivity]. }
  rewrite Hprep. now apply framing_restores_angle.
Qed.

Lemma settings_unlinked_configured sx sy smp rp (b : Blend) :
  let c := configured sx sy smp rp (cleared b) in
  resolution_x (scene_render (scene c))
    = (if truthy_int sx then int_of sx else resolution_x (scene_render (scene b))) /\
  resolution_y (scene_render (scene c))
    = (if truthy_int sy then int_of sy else resolution_y (scene_render (scene b))) /\
  samples (scene_cycles (scene c))
    = (if truthy_int smp then int_of smp else samples (scene_cycles (scene b))) /\
  filepath (scene_render (scene c))
    = (if truthy_str rp then str_of rp else filepath (scene_render (scene b))).
Proof.
  cbv zeta. unfold configured, when, cleared.
  destruct (data_unlinked (objects (scene b)) (store_camera None b))
    as (_ & Hr & Hc & _).
  destruct (truthy_int sy), (truthy_int sx), (truthy_int smp), (truthy_str rp);
    cbn [scene scene_render scene_cycles resolution_x resolution_y samples filepath
         store_resolution_x store_resolution_y store_samples store_filepath
         store_film_transparent store_color_mode store_resolution_percentage
         store_engine with_render with_cycles with_scene];
    rewrite ?Hr, ?Hc; repeat split; reflexivity.
Qed.

Lemma settings_after_render fbx hdr sx sy smp save rp (b : Blend) :
  leaves_settings host ->
  let c := configured sx sy smp rp (cleared b) in
  scene_render (scene (final (render host fbx hdr sx sy smp save rp b)))
    = scene_render (scene c) /\
  scene_cycles (scene (final (render host fbx hdr sx sy smp save rp b)))
    = scene_cycles (scene c).
Proof.
  intros (Himport & Hframe & Hsave & Hrender) c.
  rewrite render_run. cbv zeta. cbn [final].
  set (b' := is_prepared host fbx hdr sx sy smp rp b).
  assert (Hfin : scene_render (scene (final (finish_run host save rp b')))
                 = scene_render (scene b') /\
                 scene_cycles (scene (final (finish_run host save rp b')))
                 = scene_cycles (scene b')).
  { unfold finish_run, when. cbv zeta.
    destruct (truthy_str save), (truthy_str rp);
      try destruct (open_w host (str_of save) (env b'));
      cbn [final];
      rewrite ?(proj1 (Hrender _)), ?(proj2 (Hrender _)),
        ?(proj1 (Hsave _ _)), ?(proj2 (Hsave _ _));
      split; reflexivity. }
  destruct Hfin as (-> & ->).
  assert (Hprep : scene_render (scene b')
                  = scene_render (scene (is_framed host fbx sx sy smp rp b)) /\
                  scene_cycles (scene b')
                  = scene_cycles (scene (is_framed host fbx sx sy smp rp b))).
  { subst b'. unfold is_prepared, when. destruct (truthy_str hdr); split; reflexivity. }
  destruct Hprep as (-> & ->).
  unfold is_framed, with_framing. cbv zeta.
  change (scene (with_camera ?i ?f ?x)) with (scene x).
  rewrite (proj1 (Hframe _)), (proj2 (Hframe _)).
  change (scene (with_camera ?i ?f ?x)) with (scene x).
  unfold is_set_up.
  rewrite (proj1 (Himport _ _)), (proj2 (Himport _ _)).
  split; reflexivity.
Qed.

Ltac zero_is_false :=
  unfold configure_calls;
  change (truthy_int (Some 0)) with false;
  change (truthy_str (Some EmptyString)) with false;
  cbv iota.

(** C10.  A width, height or sample count of 0, and an empty render path,
    run as the omitted argument does: the run of [render] is the same, it
    makes no assignment to resolution_x, resolution_y, samples or filepath,
    and, the host's operators leaving the settings to the script, the scene
    keeps the values it had. *)
Theorem zero_or_empty_is_like_omitted fbx hdr sx sy smp save rp (b : Blend) :
  let zero_x := render host fbx hdr (Some 0) sy smp save rp b in
  let zero_y := render host fbx hdr sx (Some 0) smp save rp b in
  let zero_s := render host fbx hdr sx sy (Some 0) save rp b in
  let empty_r := render host fbx hdr sx sy smp save (Some EmptyString) b in
  (zero_x = render host fbx hdr None sy smp save rp b /\
   zero_y = render host fbx hdr sx None smp save rp b /\
   zero_s = render host fbx hdr sx sy None save rp b /\
   empty_r = render host fbx hdr sx sy smp save None b) /\
  (calls_where is_set_resolution_x (trace zero_x) = [] /\
   calls_where is_set_resolution_y (trace zero_y) = [] /\
   calls_where is_set_samples (trace zero_s) = [] /\
   calls_where is_set_filepath (trace empty_r) = [] /\
   calls_where is_render (trace empty_r) = []) /\
  (leaves_settings host ->
   resolution_x (scene_render (scene (final zero_x)))
     = resolution_x (scene_render (scene b)) /\
   resolution_y (scene_render (scene (final zero_y)))
     = resolution_y (scene_render (scene b)) /\
   samples (scene_cycles (scene (final zero_s)))
     = samples (scene_cycles (scene b)) /\
   filepath (scene_render (scene (final empty_r)))
     = filepath (scene_render (scene b))).
Proof.
  cbv zeta. split; [|split].
  - repeat split; reflexivity.
  - rewrite !render_run. cbv zeta. cbn [trace]. rewrite !prepare_trace.
    split; [|split; [|split; [|split]]].
    + destruct (finish_cases save rp (is_prepared host fbx hdr (Some 0) sy smp rp b))
        as [(_ & ->)|(_ & _ & _ & _ & ->)]; zero_is_false; select_calls; reflexivity.
    + destruct (finish_cases save rp (is_prepared host fbx hdr sx (Some 0) smp rp b))
        as [(_ & ->)|(_ & _ & _ & _ & ->)]; zero_is_false; select_calls; reflexivity.
    + destruct (finish_cases save rp (is_prepared host fbx hdr sx sy (Some 0) rp b))
        as [(_ & ->)|(_ & _ & _ & _ & ->)]; zero_is_false; select_calls; reflexivity.
    + destruct (finish_cases save (Some EmptyString)
                  (is_prepared host fbx hdr sx sy smp (Some EmptyString) b))
        as [(_ & ->)|(_ & _ & _ & _ & ->)]; zero_is_false; select_calls; reflexivity.
    + destruct (finish_cases save (Some EmptyString)
                  (is_prepared host fbx hdr sx sy smp (Some EmptyString) b))
        as [(_ & ->)|(_ & _ & _ & _ & ->)]; zero_is_false; select_calls; reflexivity.
  - intros Hhost.
    split; [|split; [|split]].
    + rewrite (proj1 (settings_after_render fbx hdr (Some 0) sy smp save rp b Hhost)).
      apply (settings_unlinked_configured (Some 0) sy smp rp b).
    + rewrite (proj1 (settings_after_render fbx hdr sx (Some 0) smp save rp b Hhost)).
      apply (settings_unlinked_configured sx (Some 0) smp rp b).
    + rewrite (proj2 (settings_after_render fbx hdr sx sy (Some 0) save rp b Hhost)).
      apply (settings_unlinked_configured sx sy (Some 0) rp b).
    + rewrite (proj1 (settings_after_render fbx hdr sx sy smp save
                        (Some EmptyString) b Hhost)).
      apply (settings_unlinked_configured sx sy smp (Some EmptyString) b).
Qed.

End Claims.

(** * The script on the demo host *)

(** C1, the claim as stated fails: with a save path that cannot be opened
    and a render path, both given, the run neither saves nor renders, and
    its steps stop short of the fixed order. *)
Lemma unwritable_save_path_breaks_order :
  truthy_str (Some "/nonexistent/blend_out.blend") = true /\
  truthy_str (Some "/tmp/render_out_image") = true /\
  calls_where is_save
    (trace (render demo_host "/path/to/some.fbx" None None None None
              (Some "/nonexistent/blend_out.blend") (Some "/tmp/render_out_image")
              demo_blend)) = [] /\
  calls_where is_render
    (trace (render demo_host "/path/to/some.fbx" None None None None
              (Some "/nonexistent/blend_out.blend") (Some "/tmp/render_out_image")
              demo_blend)) = [] /\
  steps
    (trace (render demo_host "/path/to/some.fbx" None None None None
              (Some "/nonexistent/blend_out.blend") (Some "/tmp/render_out_image")
              demo_blend))
    = [Clear; Configure; Make_camera; Import; Frame; Save] /\
  fixed_order None (Some "/nonexistent/blend_out.blend") (Some "/tmp/render_out_image")
    = [Clear; Configure; Make_camera; Import; Frame; Save; Render_image].
Proof. vm_compute. repeat split. Qed.

Lemma render_steps_in_fixed_order_witness :
  res (render demo_host "/path/to/some.fbx" (Some "/path/to/image.hdr")
         (Some 800) (Some 800) (Some 80)
         (Some "/tmp/blend_out.blend") (Some "/tmp/render_out_image") demo_blend)
    = Normal tt /\
  steps
    (trace (render demo_host "/path/to/some.fbx" (Some "/path/to/image.hdr")
              (Some 800) (Some 800) (Some 80)
              (Some "/tmp/blend_out.blend") (Some "/tmp/render_out_image") demo_blend))
    = fixed_order (Some "/path/to/image.hdr") (Some "/tmp/blend_out.blend")
        (Some "/tmp/render_out_image").
Proof.
  assert (H : res (render demo_host "/path/to/some.fbx" (Some "/path/to/image.hdr")
                     (Some 800) (Some 800) (Some 80)
                     (Some "/tmp/blend_out.blend") (Some "/tmp/render_out_image")
                     demo_blend) = Normal tt)
    by (vm_compute; reflexivity).
  split; [exact H|].
  exact (proj1 (proj2 (proj2 (proj2 (render_steps_in_fixed_order demo_host
           "/path/to/some.fbx" (Some "/path/to/image.hdr")
           (Some 800) (Some 800) (Some 80)
           (Some "/tmp/blend_out.blend") (Some "/tmp/render_out_image")
           demo_blend))) H)).
Defined.

(** C2, the claim as stated fails: [--save=] and [--render=] supply both
    flags, the run completes, and it neither saves nor renders. *)
Lemma empty_paths_are_skipped :
  parse_args demo_host (script_args (demo_argv empty_options))
    = Some empty_namespace_paths /\
  save_path empty_namespace_paths = Some EmptyString /\
  render_path empty_namespace_paths = Some EmptyString /\
  res (main demo_host (demo_argv empty_options) demo_blend) = Normal tt /\
  calls_where is_save (trace (main demo_host (demo_argv empty_options) demo_blend))
    = [] /\
  calls_where is_render (trace (main demo_host (demo_argv empty_options) demo_blend))
    = [].
Proof. vm_compute. repeat split. Qed.

Lemma save_and_render_follow_flags_witness :
  parse_args demo_host (script_args (demo_argv usage_options)) = Some usage_namespace /\
  script_args (demo_argv usage_options) <> [] /\
  truthy_str (fbx_path usage_namespace) = true /\
  res (main demo_host (demo_argv usage_options) demo_blend) = Normal tt /\
  calls_where is_save (trace (main demo_host (demo_argv usage_options) demo_blend))
    = [Save_as_mainfile "/tmp/blend_out.blend"] /\
  calls_where is_render (trace (main demo_host (demo_argv usage_options) demo_blend))
    = [Render_render true].
Proof.
  assert (H1 : parse_args demo_host (script_args (demo_argv usage_options))
               = Some usage_namespace) by (vm_compute; reflexivity).
  assert (H2 : script_args (demo_argv usage_options) <> []) by (vm_compute; discriminate).
  assert (H3 : truthy_str (fbx_path usage_namespace) = true) by reflexivity.
  assert (H4 : res (main demo_host (demo_argv usage_options) demo_blend) = Normal tt)
    by (vm_compute; reflexivity).
  pose proof (save_and_render_follow_flags demo_host (demo_argv usage_options)
                usage_namespace demo_blend H1 H2 H3 H4) as (Hs & Hr & _).
  exact (conj H1 (conj H2 (conj H3 (conj H4 (conj Hs Hr))))).
Defined.

Lemma hdr_strength_and_map_resolution_witness :
  truthy_str (Some "/path/to/image.hdr") = true /\
  In (Set_input_default 1 (NodeNamed "Background") "Strength" 1.5%float)
    (trace (render demo_host "/path/to/some.fbx" (Some "/path/to/image.hdr")
              None None None None None demo_blend)) /\
  In (Set_sample_map_resolution 1 512)
    (trace (render demo_host "/path/to/some.fbx" (Some "/path/to/image.hdr")
              None None None None None demo_blend)).
Proof.
  assert (H : truthy_str (Some "/path/to/image.hdr") = true) by reflexivity.
  pose proof (hdr_strength_and_map_resolution demo_host "/path/to/some.fbx"
                (Some "/path/to/image.hdr") None None None None None demo_blend H)
    as (Hs & _ & Hm & _).
  split; [exact H|]. split; [exact Hs|exact Hm].
Defined.

Lemma hdr_world_is_built_witness :
  truthy_str (Some "/path/to/image.hdr") = true /\
  trace (render_hdr_set demo_host "/path/to/image.hdr"
           (final (framed demo_host "/path/to/some.fbx" None None None None demo_blend)))
    = lighting_calls 1 (NodeAdded 0) 0 "/path/to/image.hdr".
Proof.
  assert (H : truthy_str (Some "/path/to/image.hdr") = true) by reflexivity.
  pose proof (hdr_world_is_built demo_host "/path/to/some.fbx"
                (Some "/path/to/image.hdr") None None None None None demo_blend H)
    as (_ & _ & Ht & _).
  split; [exact H|exact Ht].
Defined.

Lemma fbx_imported_once_witness :
  parse_args demo_host (script_args (demo_argv usage_options)) = Some usage_namespace /\
  script_args (demo_argv usage_options) <> [] /\
  truthy_str (fbx_path usage_namespace) = true /\
  calls_where is_import (trace (main demo_host (demo_argv usage_options) demo_blend))
    = [Import_scene_fbx
         (mkFbxArgs "Y" "Z" 0.001%float "/path/to/some.fbx" true 0.1%float)].
Proof.
  assert (H1 : parse_args demo_host (script_args (demo_argv usage_options))
               = Some usage_namespace) by (vm_compute; reflexivity).
  assert (H2 : script_args (demo_argv usage_options) <> []) by (vm_compute; discriminate).
  assert (H3 : truthy_str (fbx_path usage_namespace) = true) by reflexivity.
  exact (conj H1 (conj H2 (conj H3
           (proj2 (fbx_imported_once demo_host) (demo_argv usage_options)
              usage_namespace demo_blend H1 H2 H3)))).
Defined.

Lemma unwritable_save_path_aborts_witness :
  parse_args demo_host (script_args (demo_argv unwritable_options))
    = Some unwritable_namespace /\
  script_args (demo_argv unwritable_options) <> [] /\
  truthy_str (fbx_path unwritable_namespace) = true /\
  truthy_str (save_path unwritable_namespace) = true /\
  open_w demo_host (str_of (save_path unwritable_namespace))
    (env (final (prepare demo_host "/path/to/some.fbx" None None None None
                   (Some "/tmp/render_out_image") demo_blend))) = None /\
  res (main demo_host (demo_argv unwritable_options) demo_blend)
    = Raised (UnboundLocalError "ok") /\
  calls_where is_render
    (trace (main demo_host (demo_argv unwritable_options) demo_blend)) = [].
Proof.
  assert (H1 : parse_args demo_host (script_args (demo_argv unwritable_options))
               = Some unwritable_namespace) by (vm_compute; reflexivity).
  assert (H2 : script_args (demo_argv unwritable_options) <> [])
    by (vm_compute; discriminate).
  assert (H3 : truthy_str (fbx_path unwritable_namespace) = true) by reflexivity.
  assert (H4 : truthy_str (save_path unwritable_namespace) = true) by reflexivity.
  assert (H5 : open_w demo_host (str_of (save_path unwritable_namespace))
                 (env (final (prepare demo_host "/path/to/some.fbx" None None None None
                                (Some "/tmp/render_out_image") demo_blend))) = None)
    by (vm_compute; reflexivity).
  pose proof (unwritable_save_path_aborts demo_host (demo_argv unwritable_options)
                unwritable_namespace demo_blend H1 H2 H3 H4 H5)
    as (Hres & _ & _ & _ & _ & Hr).
  exact (conj H1 (conj H2 (conj H3 (conj H4 (conj H5 (conj Hres Hr)))))).
Defined.

Lemma camera_angle_restored_witness :
  keeps_camera_count (camera_to_view_selected demo_host) /\
  (forall p, keeps_cameras (save_as_mainfile demo_host p)) /\
  keeps_cameras (render_render demo_host true) /\
  angle (camera_at
           (final (render demo_host "/path/to/some.fbx" (Some "/path/to/image.hdr")
                     (Some 800) (Some 800) (Some 80)
                     (Some "/tmp/blend_out.blend") (Some "/tmp/render_out_image")
                     demo_blend))
           (length (cameras (data demo_blend))))
  = angle (camera_at
             (final (set_up demo_host "/path/to/some.fbx" (Some 800) (Some 800)
                       (Some 80) (Some "/tmp/render_out_image") demo_blend))
             (length (cameras (data demo_blend)))).
Proof.
  assert (H1 : keeps_camera_count (camera_to_view_selected demo_host))
    by (intros b; reflexivity).
  assert (H2 : forall p, keeps_cameras (save_as_mainfile demo_host p))
    by (intros p b; reflexivity).
  assert (H3 : keeps_cameras (render_render demo_host true))
    by (intros b; reflexivity).
  pose proof (camera_angle_restored demo_host "/path/to/some.fbx"
                (Some "/path/to/image.hdr") (Some 800) (Some 800) (Some 80)
                (Some "/tmp/blend_out.blend") (Some "/tmp/render_out_image")
                demo_blend H1 H2 H3) as (_ & _ & _ & _ & H).
  exact (conj H1 (conj H2 (conj H3 H))).
Defined.

Lemma zero_or_empty_is_like_omitted_witness :
  leaves_settings demo_host /\
  main demo_host (demo_argv ["--fbx=/path/to/some.fbx"; "--width=0"]) demo_blend
  = main demo_host (demo_argv ["--fbx=/path/to/some.fbx"]) demo_blend /\
  resolution_x
    (scene_render
       (scene (final (render demo_host "/path/to/some.fbx" None (Some 0) (Some 600)
                        None None None demo_blend))))
  = resolution_x (scene_render (scene demo_blend)).
Proof.
  assert (H : leaves_settings demo_host).
  { split; [|split; [|split]]; intros; split; reflexivity. }
  split; [exact H|]. split; [vm_compute; reflexivity|].
  exact (proj1 (proj2 (proj2 (zero_or_empty_is_like_omitted demo_host
           "/path/to/some.fbx" None (Some 0) (Some 600) None None None demo_blend)) H)).
Defined.

(** * More of the script *)

Lemma after_first_app (x : string) (pre post : list string) :
  ~ In x pre -> after_first x (pre ++ x :: post) = post.
Proof.
  induction pre as [|a pre IH]; intros Hpre; cbn [app after_first].
  - now rewrite String.eqb_refl.
  - destruct (String.eqb_spec a x) as [->|Hne].
    + exfalso. apply Hpre. now left.
    + apply IH. intros Hin. apply Hpre. now right.
Qed.

Lemma existsb_dashes_false (x : string) (l : list string) :
  ~ In x l -> existsb (String.eqb x) l = false.
Proof.
  intros Hl. destruct (existsb (String.eqb x) l) eqn:He; [|reflexivity].
  apply existsb_exists in He as (a & Ha & Heq).
  apply String.eqb_eq in Heq. subst a. contradiction.
Qed.

(** X1.  [main] hands the parser what follows the first [--] of the
    command line, later [--] included, and nothing when there is no [--]. *)
Theorem script_args_after_first_dashes (pre : list string) :
  ~ In "--" pre ->
  script_args pre = [] /\
  forall post, script_args (pre ++ "--" :: post) = post.
Proof.
  intros Hpre. unfold script_args. split.
  - now rewrite existsb_dashes_false.
  - intros post. rewrite existsb_app. cbn [existsb].
    rewrite String.eqb_refl, orb_true_r. cbn [negb orb].
    now apply after_first_app.
Qed.

Lemma script_args_after_first_dashes_witness :
  ~ In "--" ["blender"; "--background"; "--python"; "pyfbx_render.py"] /\
  script_args
    (["blender"; "--background"; "--python"; "pyfbx_render.py"]
     ++ "--" :: ["--fbx=/path/to/some.fbx"; "--"; "--width=800"])
  = ["--fbx=/path/to/some.fbx"; "--"; "--width=800"].
Proof.
  assert (H : ~ In "--" ["blender"; "--background"; "--python"; "pyfbx_render.py"]).
  { cbn [In]. intros [H|[H|[H|[H|[]]]]]; discriminate H. }
  exact (conj H (proj2 (script_args_after_first_dashes _ H) _)).
Defined.

Lemma unlinked_objects {Env} (obs : list ID) (b : Blend Env) :
  objects (scene (unlinked obs b))
  = fold_left (fun l ob => filter (fun o => o <> ob) l) obs (objects (scene b)).
Proof.
  revert b. unfold unlinked.
  induction obs as [|ob obs IH]; intros b; cbn [fold_left]; [reflexivity|].
  now rewrite IH.
Qed.

Lemma unlink_each (obs l : list ID) :
  Forall (fun o => o ∈ obs) l ->
  fold_left (fun l ob => filter (fun o => o <> ob) l) obs l = [].
Proof.
  revert l. induction obs as [|ob obs IH]; intros l Hl; cbn [fold_left].
  - destruct l as [|o l]; [reflexivity|].
    apply Forall_cons in Hl as [Ho _]. now apply elem_of_nil in Ho.
  - apply IH. apply Forall_forall. intros o Ho.
    apply list_elem_of_filter in Ho as [Hne Ho].
    rewrite Forall_forall in Hl. specialize (Hl o Ho).
    apply elem_of_cons in Hl as [->|Hl]; [contradiction|exact Hl].
Qed.

Section More.

Context {Env : Type} (host : Host Env).

Abbreviation M := (M Env).
Abbreviation Blend := (Blend Env).

Abbreviation prepare_of ns :=
  (prepare host (str_of (fbx_path ns)) (hdr_path ns) (size_x ns) (size_y ns)
     (ns_samples ns) (render_path ns)).

(** X2.  Unless the arguments after [--] are not empty, parse, and give a
    non-empty [--fbx], a run of [main] leaves the session as it was and
    only prints; when it returns, the last thing printed is the help. *)
Theorem main_guards_render argv (b : Blend) :
  let r := main host argv b in
  (exists ns,
     parse_args host (script_args argv) = Some ns /\
     script_args argv <> [] /\
     truthy_str (fbx_path ns) = true)
  \/
  (final r = b /\
   Forall (fun c => step_of c = Report) (trace r) /\
   (res r = Normal tt -> last (trace r) = Some Print_help)).
Proof.
  cbv zeta. unfold main, parse_args_call. cbv zeta.
  destruct (parse_args host (script_args argv)) as [ns|] eqn:Hparse.
  - cbv beta iota delta [mbind mret M_bind M_ret bind ret].
    destruct (script_args argv) as [|a rest] eqn:Hargs.
    + right. cbv [print_help perform hostcall]. cbn [final trace app].
      split; [reflexivity|]. split; [now repeat constructor|reflexivity].
    + destruct (truthy_str (fbx_path ns)) eqn:Hfbx.
      * left. exists ns. split; [reflexivity|]. now split.
      * right. cbn [negb]. cbv [print print_help perform hostcall].
        cbn [final trace app].
        split; [reflexivity|]. split; [now repeat constructor|reflexivity].
  - right. cbv [mbind M_bind bind raise]. cbn [final trace res].
    split; [reflexivity|]. split; [constructor|discriminate].
Qed.

Lemma block_steps (s : step) (l : list call) (c : call) :
  block s l -> In c l -> step_of c = s.
Proof.
  intros [_ Hall] Hin. rewrite Forall_forall in Hall.
  apply Hall. now apply list_elem_of_In.
Qed.

Lemma prepare_never_reports fbx hdr sx sy smp rp (b : Blend) (c : call) :
  In c (trace (prepare host fbx hdr sx sy smp rp b)) -> step_of c <> Report.
Proof.
  rewrite prepare_trace. rewrite !in_app_iff.
  intros [H|[H|[H|[H|[H|H]]]]].
  - now rewrite (block_steps _ _ _ (clear_block _) H).
  - now rewrite (block_steps _ _ _ (configure_block _ _ _ _) H).
  - now rewrite (block_steps _ _ _ (camera_block _ _) H).
  - now rewrite (block_steps _ _ _ (import_block _) H).
  - now rewrite (block_steps _ _ _ (frame_block _ _) H).
  - destruct (truthy_str hdr); [|destruct H].
    now rewrite (block_steps _ _ _ (lighting_block _ _ _ _) H).
Qed.

(** X3.  A run of [main] that reaches [render] returns exactly when no
    save path is given or the save path can be opened for writing; it then
    ends with the closing message.  Otherwise it raises UnboundLocalError
    for [ok] and the closing message is not printed. *)
Theorem main_returns_iff_save_path_opens argv ns (b : Blend) :
  parse_args host (script_args argv) = Some ns ->
  script_args argv <> [] ->
  truthy_str (fbx_path ns) = true ->
  let r := main host argv b in
  let opened :=
    open_w host (str_of (save_path ns)) (env (final (prepare_of ns b))) in
  (res r = Normal tt <-> truthy_str (save_path ns) = false \/ opened <> None) /\
  (res r = Normal tt ->
   last (trace r) = Some (Print "batch job finished, exiting")) /\
  (res r <> Normal tt ->
   res r = Raised (UnboundLocalError "ok") /\
   ~ In (Print "batch job finished, exiting") (trace r)).
Proof.
  intros Hparse Hargs Hfbx. cbv zeta.
  rewrite (main_run host _ _ _ Hparse Hargs Hfbx).
  rewrite prepare_final, render_run. cbv zeta. unfold finish_run.
  destruct (truthy_str (save_path ns));
    [destruct (open_w host (str_of (save_path ns)) _) as [e|]|];
    cbn [res final trace].
  - split; [split; [intros _; now right|reflexivity]|].
    split; [intros _; apply last_snoc|congruence].
  - split; [split; [discriminate|intros [H|H]; congruence]|].
    split; [discriminate|]. intros _. split; [reflexivity|].
    rewrite in_app_iff. intros [H|H].
    + now apply (prepare_never_reports _ _ _ _ _ _ _ _ H).
    + cbn [In] in H. destruct H as [H|[H|[H|[]]]]; discriminate H.
  - split; [split; [intros _; now left|reflexivity]|].
    split; [intros _; apply last_snoc|congruence].
Qed.

Lemma cleared_objects (b : Blend) : objects (scene (cleared b)) = [].
Proof.
  unfold cleared. rewrite unlinked_objects. apply unlink_each.
  apply Forall_forall. now intros o Ho.
Qed.

(** X4.  The clearing block of [render] leaves the scene with no active
    camera and no object linked, with one unlink call for each object that
    was linked; it removes nothing from the host's data and changes no
    setting. *)
Theorem clear_scene_unlinks_everything (b : Blend) :
  let r := clear_scene b in
  res r = Normal tt /\
  trace r = Set_scene_camera None :: map Objects_unlink (objects (scene b)) /\
  camera (scene (final r)) = None /\
  objects (scene (final r)) = [] /\
  world (scene (final r)) = world (scene b) /\
  scene_render (scene (final r)) = scene_render (scene b) /\
  scene_cycles (scene (final r)) = scene_cycles (scene b) /\
  data (final r) = data b /\
  env (final r) = env b.
Proof.
  cbv zeta.
  destruct (returns_run _ _ _ _ _ (clear_scene_returns b)) as (-> & -> & ->).
  unfold cleared.
  destruct (data_unlinked (objects (scene b)) (store_camera None b))
    as (Hd & Hr & Hc & Hcam & Hw & He).
  split; [reflexivity|]. split; [reflexivity|].
  split; [now rewrite Hcam|].
  split; [apply cleared_objects|].
  split; [now rewrite Hw|]. split; [now rewrite Hr|].
  split; [now rewrite Hc|]. split; [now rewrite Hd|now rewrite He].
Qed.

Lemma new_camera_state (b : Blend) :
  let b' := with_new_camera host b in
  let ob := length (data_objects (data b)) in
  camera (scene b') = Some ob /\
  objects (scene b') = objects (scene b) ++ [ob] /\
  cameras (data b') = cameras (data b) ++ [fresh_camera host "MyCam" b] /\
  exists o,
    data_objects (data b') = data_objects (data b) ++ [o] /\
    object_data o
    = object_data
        (fresh_object host "MyCam" (length (cameras (data b)))
           (with_cameras (fun l => l ++ [fresh_camera host "MyCam" b]) b)) /\
    rotation_euler o = camera_rotation.
Proof.
  cbv zeta. split; [reflexivity|]. split; [reflexivity|]. split; [reflexivity|].
  eexists. split.
  - unfold with_new_camera. cbv zeta.
    change (data_objects (data (with_object ?i ?f ?x)))
      with (alter f i (data_objects (data x))).
    change (data_objects (data (store_camera ?c ?x))) with (data_objects (data x)).
    change (data_objects (data (with_objects ?f ?x))) with (data_objects (data x)).
    change (data_objects (data (with_data_objects ?f ?x)))
      with (f (data_objects (data x))).
    cbv beta.
    change (data_objects (data (with_cameras ?f ?x))) with (data_objects (data x)).
    apply alter_snoc.
  - split; reflexivity.
Qed.

Lemma objects_configured sx sy smp rp (b : Blend) :
  objects (scene (configured sx sy smp rp b)) = objects (scene b) /\
  camera (scene (configured sx sy smp rp b)) = camera (scene b).
Proof.
  unfold configured, when.
  destruct (truthy_int sy), (truthy_int sx), (truthy_int smp), (truthy_str rp);
    split; reflexivity.
Qed.

(** X5.  When the importer is called the new camera object is the scene's
    active camera and the only object linked to the scene; the run has
    added one camera and one object to the host's data, the object with
    the fixed rotation, and removed none. *)
Theorem new_camera_is_alone_in_the_scene sx sy smp rp (b : Blend) :
  let r :=
    (clear_scene;; configure sx sy smp rp;; make_camera host : M ID) b in
  let cam := length (cameras (data b)) in
  let ob := length (data_objects (data b)) in
  res r = Normal cam /\
  camera (scene (final r)) = Some ob /\
  objects (scene (final r)) = [ob] /\
  (exists c, cameras (data (final r)) = cameras (data b) ++ [c]) /\
  (exists o,
     data_objects (data (final r)) = data_objects (data b) ++ [o] /\
     rotation_euler o = (radians 60, radians 0, radians 170)).
Proof.
  cbv zeta.
  pose proof (make_camera_returns host (configured sx sy smp rp (cleared b))) as Hc.
  rewrite data_configured, data_cleared in Hc.
  assert (Hrun : returns
            (clear_scene;; configure sx sy smp rp;; make_camera host : M ID) b
            (length (cameras (data b)))
            (with_new_camera host (configured sx sy smp rp (cleared b)))
            (clear_calls (objects (scene b))
             ++ configure_calls sx sy smp rp
             ++ camera_calls (length (cameras (data b)))
                  (length (data_objects (data b))))).
  { eapply returns_bind_returns; [apply clear_scene_returns|].
    eapply returns_bind_returns; [apply configure_returns|exact Hc]. }
  destruct (returns_run _ _ _ _ _ Hrun) as (-> & -> & _).
  destruct (new_camera_state (configured sx sy smp rp (cleared b)))
    as (Hcam & Hobs & Hcams & o & Hdobs & _ & Hrot).
  rewrite data_configured, data_cleared in Hcam, Hobs, Hcams, Hdobs.
  split; [reflexivity|]. split; [exact Hcam|].
  split.
  { now rewrite Hobs, (proj1 (objects_configured sx sy smp rp (cleared b))),
      cleared_objects. }
  split; [eexists; exact Hcams|].
  exists o. split; [exact Hdobs|exact Hrot].
Qed.

(** X6.  With host operators that leave the settings to the script, the
    render and cycles settings at the end of every run of [render], aborted
    or not, are: engine 'CYCLES', resolution percentage 100, colour mode
    'RGBA', film_transparent True, and for the file path, the width, the
    height and the samples the argument when it is given and not empty or
    zero (negative numbers are stored as they are), the scene's earlier
    value otherwise. *)
Theorem settings_at_the_end fbx hdr sx sy smp save rp (b : Blend) :
  leaves_settings host ->
  let r0 := scene_render (scene b) in
  let c0 := scene_cycles (scene b) in
  let f := final (render host fbx hdr sx sy smp save rp b) in
  scene_render (scene f) =
    mkRenderSettings "CYCLES" 100%float
      (if truthy_str rp then str_of rp else filepath r0)
      (if truthy_int sx then int_of sx else resolution_x r0)
      (if truthy_int sy then int_of sy else resolution_y r0)
      "RGBA" /\
  scene_cycles (scene f) =
    mkCyclesSettings (if truthy_int smp then int_of smp else samples c0) true.
Proof.
  intros Hhost. cbv zeta.
  destruct (settings_after_render host fbx hdr sx sy smp save rp b Hhost)
    as (-> & ->).
  unfold configured, when, cleared.
  destruct (data_unlinked (objects (scene b)) (store_camera None b))
    as (_ & Hr & Hc & _).
  destruct (truthy_int sy), (truthy_int sx), (truthy_int smp), (truthy_str rp);
    cbn [scene scene_render scene_cycles resolution_x resolution_y samples filepath
         engine resolution_percentage color_mode film_transparent
         store_resolution_x store_resolution_y store_samples store_filepath
         store_film_transparent store_color_mode store_resolution_percentage
         store_engine with_render with_cycles with_scene];
    rewrite ?Hr, ?Hc; split; reflexivity.
Qed.

(** X7.  [render_hdr_set] only adds: each call appends one world and one
    image to the host's data and makes the new world the scene's, leaving
    the earlier worlds and images, the cameras, the objects and the settings
    as they were; two calls in a row, even with the same path, leave two new
    worlds and two images, the scene using the second. *)
Theorem render_hdr_set_only_adds hdr hdr' (b : Blend) :
  let r := render_hdr_set host hdr b in
  let r2 := (render_hdr_set host hdr;; render_hdr_set host hdr' : M unit) b in
  ((exists wd, worlds (data (final r)) = worlds (data b) ++ [wd]) /\
   images (data (final r)) = images (data b) ++ [mkImage hdr] /\
   world (scene (final r)) = Some (length (worlds (data b))) /\
   cameras (data (final r)) = cameras (data b) /\
   data_objects (data (final r)) = data_objects (data b) /\
   camera (scene (final r)) = camera (scene b) /\
   objects (scene (final r)) = objects (scene b) /\
   scene_render (scene (final r)) = scene_render (scene b) /\
   scene_cycles (scene (final r)) = scene_cycles (scene b) /\
   env (final r) = env b) /\
  ((exists wd wd', worlds (data (final r2)) = worlds (data b) ++ [wd; wd']) /\
   images (data (final r2)) = images (data b) ++ [mkImage hdr; mkImage hdr'] /\
   world (scene (final r2)) = Some (S (length (worlds (data b))))).
Proof.
  cbv zeta. split.
  - destruct (returns_run _ _ _ _ _ (render_hdr_set_returns host hdr b))
      as (_ & -> & _).
    split; [eexists; reflexivity|]. repeat (split; [reflexivity|]). reflexivity.
  - assert (Hrun : returns
              (render_hdr_set host hdr;; render_hdr_set host hdr' : M unit) b tt
              (with_lighting host hdr' (with_lighting host hdr b))
              (lighting_calls_at host hdr b
               ++ lighting_calls_at host hdr' (with_lighting host hdr b))).
    { eapply returns_bind_returns; apply render_hdr_set_returns. }
    destruct (returns_run _ _ _ _ _ Hrun) as (_ & -> & _).
    set (b1 := with_lighting host hdr b).
    assert (Hw : worlds (data b1)
                 = worlds (data b)
                   ++ [lit_world (fresh_world host "World" b)
                         (length (images (data b)))]) by reflexivity.
    assert (Hi : images (data b1) = images (data b) ++ [mkImage hdr])
      by reflexivity.
    split; [|split].
    + exists (lit_world (fresh_world host "World" b) (length (images (data b)))),
        (lit_world (fresh_world host "World" b1) (length (images (data b1)))).
      change (worlds (data (with_lighting host hdr' b1)))
        with (worlds (data b1)
              ++ [lit_world (fresh_world host "World" b1)
                    (length (images (data b1)))]).
      now rewrite Hw, <- app_assoc.
    + change (images (data (with_lighting host hdr' b1)))
        with (images (data b1) ++ [mkImage hdr']).
      now rewrite Hi, <- app_assoc.
    + change (world (scene (with_lighting host hdr' b1)))
        with (Some (length (worlds (data b1)))).
      rewrite Hw, length_app. cbn [length]. f_equal. lia.
Qed.

End More.

Lemma main_returns_iff_save_path_opens_witness :
  parse_args demo_host (script_args (demo_argv unwritable_options))
    = Some unwritable_namespace /\
  script_args (demo_argv unwritable_options) <> [] /\
  truthy_str (fbx_path unwritable_namespace) = true /\
  res (main demo_host (demo_argv unwritable_options) demo_blend)
    = Raised (UnboundLocalError "ok").
Proof.
  assert (H1 : parse_args demo_host (script_args (demo_argv unwritable_options))
               = Some unwritable_namespace) by (vm_compute; reflexivity).
  assert (H2 : script_args (demo_argv unwritable_options) <> [])
    by (vm_compute; discriminate).
  assert (H3 : truthy_str (fbx_path unwritable_namespace) = true) by reflexivity.
  assert (H4 : res (main demo_host (demo_argv unwritable_options) demo_blend)
               <> Normal tt) by (vm_compute; discriminate).
  exact (conj H1 (conj H2 (conj H3
           (proj1 (proj2 (proj2 (main_returns_iff_save_path_opens demo_host
                                   (demo_argv unwritable_options)
                                   unwritable_namespace demo_blend H1 H2 H3))
                         H4))))).
Defined.

Lemma settings_at_the_end_witness :
  leaves_settings demo_host /\
  scene_render
    (scene (final (render demo_host "/path/to/some.fbx" None (Some 800) (Some (-600))
                     None None (Some "/tmp/render_out_image") demo_blend)))
  = mkRenderSettings "CYCLES" 100%float "/tmp/render_out_image" 800 (-600) "RGBA".
Proof.
  assert (H : leaves_settings demo_host).
  { split; [|split; [|split]]; intros; split; reflexivity. }
  exact (conj H (proj1 (settings_at_the_end demo_host "/path/to/some.fbx" None
                          (Some 800) (Some (-600)) None None
                          (Some "/tmp/render_out_image") demo_blend H))).
Defined.
